(** * Chroma-Deck: the hub and room sessions of the terminal client

    A shallow embedding of [chroma_deck.py].  The client is an asyncio
    program: every [await] is a point where the coroutine is parked until
    the outside world answers.  Each session is therefore embedded as a
    transition function: a state records at which [await] the session is
    parked, an [event] is the answer of the outside world, and a step
    returns the next state together with the actions (prints, prompts,
    sends, connects, closes) performed up to the next [await].

    Conventions.
    - A Python [str] is a Rocq [string] whose characters are the code
      points below 256.
    - [exn] stands for instances of Python's [Exception] class, the ones
      [except Exception] catches.  Interrupts and task cancellation are
      not [Exception]s and are outside the model.
    - Messages received from a connection are text.
    - Printing is kept abstract: an [output] names the message printed and
      carries the values formatted into it.  The wall-clock stamp that
      [receiver] puts in front of a line is not represented. *)

From Stdlib Require Import String Ascii List ZArith Bool SpecFloat.
Import ListNotations.
Open Scope string_scope.
Open Scope list_scope.
Set Warnings "-register-all".

(* ================================================================= *)
(** ** Python strings *)

Module Str.

(** [str.isspace] on one character, for code points below 256:
    TAB..CR, FS..US, SPACE, NEL (133) and NBSP (160). *)
Definition is_space (c : ascii) : bool :=
  let n := nat_of_ascii c in
  (Nat.leb 9 n && Nat.leb n 13) || (Nat.leb 28 n && Nat.leb n 32)
  || Nat.eqb n 133 || Nat.eqb n 160.

Fixpoint lstrip (s : string) : string :=
  match s with
  | EmptyString => EmptyString
  | String c r => if is_space c then lstrip r else s
  end.

Fixpoint rstrip (s : string) : string :=
  match s with
  | EmptyString => EmptyString
  | String c r =>
      match rstrip r with
      | EmptyString => if is_space c then EmptyString else String c EmptyString
      | r' => String c r'
      end
  end.

(** [s.strip()] *)
Definition strip (s : string) : string := rstrip (lstrip s).

(** [s.startswith(p)] *)
Definition startswith (p s : string) : bool := String.prefix p s.

(** [s[n:]] *)
Fixpoint drop (n : nat) (s : string) : string :=
  match n, s with
  | O, _ => s
  | S _, EmptyString => EmptyString
  | S m, String _ r => drop m r
  end.

(** [p in s] for two strings: [p] occurs in [s]. *)
Fixpoint contains (p s : string) : bool :=
  String.prefix p s
  || match s with
     | EmptyString => false
     | String _ r => contains p r
     end.

End Str.

(* ================================================================= *)
(** ** Python values and exceptions *)

Module Py.

(** What [json.loads] returns. An object is kept as the list of its
    items in insertion order. *)
Inductive json : Type :=
| JNull
| JBool (b : bool)
| JInt (z : Z)
| JFloat (f : spec_float)
| JStr (s : string)
| JArr (l : list json)
| JObj (items : list (string * json)).

Inductive exn : Type :=
| AttributeError
| TypeError
| EOFError
| KeyError
| ConnectionClosedOK
| ConnectionClosedError
| OSError (msg : string).

(** A computation that prints and may raise: the lines printed so far
    and either a value or the exception raised. *)
Definition py (Out A : Type) : Type := list Out * (A + exn).

Definition ret {Out A} (a : A) : py Out A := ([], inl a).
Definition raise {Out A} (e : exn) : py Out A := ([], inr e).
Definition print {Out} (o : Out) : py Out unit := ([o], inl tt).
Definition bind {Out A B} (m : py Out A) (k : A -> py Out B) : py Out B :=
  match m with
  | (o, inl a) => let (o', r) := k a in (o ++ o', r)
  | (o, inr e) => (o, inr e)
  end.

(** [bool(v)] *)
Definition truthy (v : json) : bool :=
  match v with
  | JNull => false
  | JBool b => b
  | JInt z => negb (z =? 0)%Z
  | JFloat (S754_zero _) => false
  | JFloat _ => true
  | JStr s => negb (s =? "")
  | JArr l => match l with [] => false | _ => true end
  | JObj d => match d with [] => false | _ => true end
  end.

(** [v == s] for a string literal [s] *)
Definition eq_str (v : json) (s : string) : bool :=
  match v with
  | JStr t => t =? s
  | _ => false
  end.

Fixpoint lookup (k : string) (d : list (string * json)) : option json :=
  match d with
  | [] => None
  | (k', v) :: r => if k' =? k then Some v else lookup k r
  end.

(** [v.get(k, dflt)]; only a dict has [get]. *)
Definition get {Out} (v : json) (k : string) (dflt : json) : py Out json :=
  match v with
  | JObj d => ret (match lookup k d with Some x => x | None => dflt end)
  | _ => raise AttributeError
  end.

(** [len(v)] *)
Definition len {Out} (v : json) : py Out nat :=
  match v with
  | JStr s => ret (String.length s)
  | JArr l => ret (List.length l)
  | JObj d => ret (List.length d)
  | _ => raise TypeError
  end.

(** [v.items()] *)
Definition items {Out} (v : json) : py Out (list (string * json)) :=
  match v with
  | JObj d => ret d
  | _ => raise AttributeError
  end.

(** [k in v] for a string [k] *)
Definition contains {Out} (k : string) (v : json) : py Out bool :=
  match v with
  | JObj d => ret (match lookup k d with Some _ => true | None => false end)
  | JArr l => ret (existsb (fun x => eq_str x k) l)
  | JStr s => ret (Str.contains k s)
  | _ => raise TypeError
  end.

(** [v[k]] for a string [k] *)
Definition getitem {Out} (v : json) (k : string) : py Out json :=
  match v with
  | JObj d => match lookup k d with Some x => ret x | None => raise KeyError end
  | _ => raise TypeError
  end.

(** [v.startswith(p)]; only a string has it. *)
Definition startswith {Out} (v : json) (p : string) : py Out bool :=
  match v with
  | JStr s => ret (Str.startswith p s)
  | _ => raise AttributeError
  end.

End Py.

Declare Scope py_scope.
Delimit Scope py_scope with py.
Notation "x <- m ;; k" := (Py.bind m (fun x => k))
  (at level 61, m at next level, right associativity) : py_scope.
Notation "m ;;; k" := (Py.bind m (fun _ => k))
  (at level 61, right associativity) : py_scope.

Import Py.
Open Scope py_scope.

(* ================================================================= *)
(** ** What the client does and what it is told *)

(** The three ways [receiver] prints an inbound line. *)
Inductive render_class : Type :=
| SystemNotice   (* the bell line *)
| TaggedChat     (* the line as it is *)
| GenericInfo.   (* the info line *)

(** How [room_chat] came back to its caller (it returns [None] on every
    path; the tag names the path): the [return] after [/leave], the
    [return] after a failed send, the [except Exception] handler. *)
Inductive outcome : Type :=
| LeftVoluntarily
| Disconnected
| JoinFailed (e : exn).

(** What is printed: one constructor per message of the source ([OHelp]
    stands for the block of help lines). *)
Inductive output : Type :=
| OConnected
| OCommands
| OAvailable (n : nat)
| ONoRooms
| ORoomEntry (i : nat) (name : string) (addr : json)
| OBlank
| OHelp
| OPong
| ORoomInfo
| OInfoName (name : string)
| OInfoAddress (addr : json)
| OInfoProtocol (secure : bool)
| OInfoNotFound (name : string)
| OJoinNotFound (name : string)
| OConnecting (name : string)
| OReturned
| OGoodbye
| OUnknown (cmd : string)
| OAdmin (msg : json)
| OWelcome (welcome : string)
| OJoined (name : string)
| ORoomCommands
| OLeaveHint
| ORender (c : render_class) (msg : string)
| ODisconnected
| OLeaving
| OConnectionLost
| OJoinFailed (e : exn).

Inductive prompt : Type := HubPrompt | NamePrompt | ChatPrompt.

Inductive action : Type :=
| ConnectHub                      (* connect(HUB_WS) *)
| ConnectRoom (address : json)    (* connect(address) *)
| SendHub (request : json)        (* ws.send(json.dumps(request)) on the hub *)
| SendRoom (text : string)        (* ws.send(text) on the room *)
| CloseHub                        (* the hub connection is closed *)
| CloseRoom                       (* ws.close() on the room, also on leaving [async with] *)
| CreateReceiver                  (* asyncio.create_task(receiver()) *)
| CancelReceiver                  (* recv_task.cancel() *)
| Input (p : prompt)              (* read_input(p) is called *)
| Print (o : output).

(** The answer to the [await] a task is parked at. An inbound hub
    message is given by what [json.loads] makes of it: [None] when it
    raises. *)
Inductive event : Type :=
| Connected
| ConnectError (e : exn)
| HubPayload (data : option json)
| RoomMessage (msg : string)
| StreamEnd
| StreamError (e : exn)
| UserLine (line : string)
| InputError (e : exn)
| SendDone
| SendError (e : exn)
| CloseDone.

(** [{"type": "get_list"}] *)
Definition get_list : json := JObj [("type", JStr "get_list")].

(** A run: the events are answered one after the other; [None] when one
    of them answers an [await] nobody is parked at. *)
Fixpoint run {S : Type} (step : S -> event -> option (S * list action))
    (s : S) (evs : list event) : option (S * list action) :=
  match evs with
  | [] => Some (s, [])
  | ev :: evs' =>
      match step s ev with
      | None => None
      | Some (s1, a1) =>
          match run step s1 evs' with
          | None => None
          | Some (s2, a2) => Some (s2, a1 ++ a2)
          end
      end
  end.

(* ================================================================= *)
(** ** RoomSession: [room_chat] *)

Module Room.

Inductive recv_task : Type := NotCreated | Running | Finished | Cancelled.

(** The [await] the body of [room_chat] is parked at. *)
Inductive pc : Type :=
| Connecting                    (* async with connect(address) *)
| AwaitWelcome                  (* welcome = await ws.recv() *)
| AwaitName                     (* name = await read_input(...) *)
| SendingName (name : string)   (* await ws.send(name) *)
| AwaitLine                     (* line = await read_input(...) *)
| Sending (line : string)       (* await ws.send(line) *)
| Closing                       (* await ws.close() *)
| Unwinding (e : exn)           (* [e] leaves async with: its close is awaited *)
| Returned (o : outcome).

Record state : Type := mk { at_pc : pc; recv : recv_task }.

(** The ordered prefix rule of [receiver]. *)
Definition classify (msg : string) : render_class :=
  if Str.startswith "---" msg then SystemNotice
  else if Str.startswith "[" msg then TaggedChat
  else GenericInfo.

(** One turn of the [receiver] task, parked at [async for msg in ws]:
    a message is printed and the task parks again; the end of the
    stream ends the loop and the task; an exception is handled by the
    disconnect notice. *)
Definition receiver (ev : event) : option (recv_task * list action) :=
  match ev with
  | RoomMessage msg => Some (Running, [Print (ORender (classify msg) msg)])
  | StreamEnd => Some (Finished, [])
  | StreamError _ => Some (Finished, [Print ODisconnected])
  | _ => None
  end.

(** [recv_task.cancel()]: a parked task never runs again, a finished
    one is left as it is. *)
Definition cancel (t : recv_task) : recv_task :=
  match t with
  | Running => Cancelled
  | _ => t
  end.

(** An exception inside [async with] during the handshake, when
    [room_chat] is the only task on the connection: the block is left,
    which closes the connection, and the handler of [room_chat] prints. *)
Definition failed (t : recv_task) (e : exn) : option (state * list action) :=
  Some (mk (Returned (JoinFailed e)) t, [CloseRoom; Print (OJoinFailed e)]).

(** [room_chat(address)] up to its first [await]. *)
Definition room_chat (address : json) : state * list action :=
  (mk Connecting NotCreated, [ConnectRoom address]).

(** One step of [room_chat]. The first cases are the body of the
    coroutine, answered at the await it is parked at. The last case is
    the [receiver] task: from [create_task] on it takes its turns
    whenever the body is parked, so also while [ws.close()] or
    [ws.send(line)] is awaited, until it finishes or is cancelled.
    An exception of [read_input] in the input loop leaves [async with]
    with [receiver] alive: the close of the exit is awaited, [receiver]
    takes its turns meanwhile, and only then the handler prints. *)
Definition room_chat_step (s : state) (ev : event) : option (state * list action) :=
  match at_pc s, ev with
  | Connecting, Connected => Some (mk AwaitWelcome (recv s), [])
  | Connecting, ConnectError e =>
      Some (mk (Returned (JoinFailed e)) (recv s), [Print (OJoinFailed e)])
  | AwaitWelcome, RoomMessage welcome =>
      Some (mk AwaitName (recv s), [Print (OWelcome welcome); Input NamePrompt])
  | AwaitWelcome, StreamEnd => failed (recv s) ConnectionClosedOK
  | AwaitWelcome, StreamError e => failed (recv s) e
  | AwaitName, UserLine name => Some (mk (SendingName name) (recv s), [SendRoom name])
  | AwaitName, InputError e => failed (recv s) e
  | SendingName name, SendDone =>
      Some (mk AwaitLine Running,
            [Print (OJoined name); Print ORoomCommands; Print OLeaveHint;
             CreateReceiver; Input ChatPrompt])
  | SendingName _, SendError e => failed (recv s) e
  | AwaitLine, UserLine line =>
      if Str.strip line =? "/leave"
      then Some (mk Closing (recv s), [Print OLeaving; CloseRoom])
      else Some (mk (Sending line) (recv s), [SendRoom line])
  | AwaitLine, InputError e => Some (mk (Unwinding e) (recv s), [CloseRoom])
  | Unwinding e, CloseDone =>
      Some (mk (Returned (JoinFailed e)) (recv s), [Print (OJoinFailed e)])
  | Sending _, SendDone => Some (mk AwaitLine (recv s), [Input ChatPrompt])
  | Sending _, SendError _ =>
      Some (mk (Returned Disconnected) (cancel (recv s)),
            [Print OConnectionLost; CancelReceiver; CloseRoom])
  | Closing, CloseDone =>
      Some (mk (Returned LeftVoluntarily) (cancel (recv s)),
            [CancelReceiver; CloseRoom])
  | (AwaitLine | Sending _ | Closing | Unwinding _), _ =>
      match recv s with
      | Running =>
          match receiver ev with
          | Some (t, acts) => Some (mk (at_pc s) t, acts)
          | None => None
          end
      | _ => None
      end
  | _, _ => None
  end.

(** The steady state: both activities started, the body parked at the
    chat prompt. *)
Definition steady (t : recv_task) : state := mk AwaitLine t.

End Room.

(* ================================================================= *)
(** ** HubSession: [hub_client] and [main] *)

Module Hub.

(** How [hub_client] ended: the [return] of [/quit], the end of
    [async for raw in ws], an exception nobody handled. *)
Inductive result : Type :=
| Quit
| StreamEnded
| Raised (e : exn).

(** The [await] [hub_client] is parked at. *)
Inductive pc : Type :=
| Connecting                   (* async with connect(HUB_WS) *)
| SendingFirst                 (* the get_list sent on connect *)
| AwaitMessage                 (* async for raw in ws *)
| AwaitCommand                 (* cmd = await read_input(...) *)
| SendingRefresh               (* the get_list of /list and /refresh *)
| SendingPing                  (* the get_list of /ping *)
| InRoom (r : Room.state)      (* await room_chat(addr) *)
| SendingAfterRoom             (* the get_list after room_chat *)
| Ended (r : result).

(** [rooms] is the cached directory: whatever the last room_list
    message carried under "rooms". *)
Record state : Type := mk { at_pc : pc; rooms : json }.

(** The body of the listing loop over [enumerate(rooms.items(), 1)]. *)
Fixpoint print_entries (i : nat) (its : list (string * json)) : py output unit :=
  match its with
  | [] => ret tt
  | (name, addr) :: r => print (ORoomEntry i name addr) ;;; print_entries (S i) r
  end.

Inductive next : Type :=
| Wait       (* back to [async for] *)
| Command.   (* into the command loop *)

(** The body of [async for raw in ws] up to the command loop, on the
    outcome of [json.loads(raw)]. Returns the directory as it is
    afterwards. *)
Definition on_message (rooms : json) (payload : option json) : py output (json * next) :=
  match payload with
  | None => ret (rooms, Wait)
  | Some data =>
      ty <- get data "type" JNull ;;
      if eq_str ty "room_list" then
        rooms' <- get data "rooms" (JObj []) ;;
        n <- len rooms' ;;
        print (OAvailable n) ;;;
        (if negb (truthy rooms') then print ONoRooms
         else its <- items rooms' ;; print_entries 1 its) ;;;
        print OBlank ;;;
        ret (rooms', Command)
      else
        ty' <- get data "type" JNull ;;
        if eq_str ty' "admin_broadcast" then
          msg <- get data "message" (JStr "") ;;
          print (OAdmin msg) ;;;
          ret (rooms, Wait)
        else ret (rooms, Wait)
  end.

(** What the command loop does after one command. *)
Inductive after : Type :=
| Continue                 (* next turn of [while True] *)
| Refresh                  (* send get_list; break *)
| Ping                     (* send get_list; print the pong; continue *)
| Join (addr : json)       (* await room_chat(addr); send get_list; break *)
| Stop.                    (* return *)

(** The [if]/[elif] chain of the command loop on the stripped,
    non-empty line. *)
Definition on_command (rooms : json) (cmd : string) : py output after :=
  if cmd =? "/help" then
    print OHelp ;;; ret Continue
  else if (cmd =? "/list") || (cmd =? "/refresh") then
    ret Refresh
  else if cmd =? "/ping" then
    ret Ping
  else if Str.startswith "/info " cmd then
    let room_name := Str.strip (Str.drop 6 cmd) in
    found <- contains room_name rooms ;;
    if found : bool then
      addr <- getitem rooms room_name ;;
      print ORoomInfo ;;;
      print (OInfoName room_name) ;;;
      print (OInfoAddress addr) ;;;
      secure <- startswith addr "wss" ;;
      print (OInfoProtocol secure) ;;;
      ret Continue
    else
      print (OInfoNotFound room_name) ;;; ret Continue
  else if Str.startswith "/join " cmd then
    let room_name := Str.strip (Str.drop 6 cmd) in
    addr <- get rooms room_name JNull ;;
    if negb (truthy addr) then
      print (OJoinNotFound room_name) ;;; ret Continue
    else
      print (OConnecting room_name) ;;; ret (Join addr)
  else if cmd =? "/quit" then
    print OGoodbye ;;; ret Stop
  else
    print (OUnknown cmd) ;;; ret Continue.

(** An exception leaves [async with], which closes the hub connection,
    and then [hub_client]. *)
Definition raised (s : state) (acts : list action) (e : exn) : option (state * list action) :=
  Some (mk (Ended (Raised e)) (rooms s), acts ++ [CloseHub]).

(** [hub_client()] up to its first [await]. *)
Definition hub_client : state * list action :=
  (mk Connecting (JObj []), [ConnectHub]).

Definition hub_client_step (s : state) (ev : event) : option (state * list action) :=
  match at_pc s, ev with
  | Connecting, Connected => Some (mk SendingFirst (rooms s), [SendHub get_list])
  | Connecting, ConnectError e => Some (mk (Ended (Raised e)) (rooms s), [])
  | SendingFirst, SendDone =>
      Some (mk AwaitMessage (JObj []), [Print OConnected; Print OCommands])
  | AwaitMessage, HubPayload payload =>
      match on_message (rooms s) payload with
      | (outs, inl (rooms', Wait)) => Some (mk AwaitMessage rooms', map Print outs)
      | (outs, inl (rooms', Command)) =>
          Some (mk AwaitCommand rooms', map Print outs ++ [Input HubPrompt])
      | (outs, inr e) => raised s (map Print outs) e
      end
  | AwaitMessage, StreamEnd => Some (mk (Ended StreamEnded) (rooms s), [CloseHub])
  | AwaitMessage, StreamError e => raised s [] e
  | AwaitCommand, UserLine line =>
      if line =? "" then Some (s, [Input HubPrompt])
      else
        match on_command (rooms s) (Str.strip line) with
        | (outs, inl Continue) => Some (s, map Print outs ++ [Input HubPrompt])
        | (outs, inl Refresh) =>
            Some (mk SendingRefresh (rooms s), map Print outs ++ [SendHub get_list])
        | (outs, inl Ping) =>
            Some (mk SendingPing (rooms s), map Print outs ++ [SendHub get_list])
        | (outs, inl (Join addr)) =>
            let (r, acts) := Room.room_chat addr in
            Some (mk (InRoom r) (rooms s), map Print outs ++ acts)
        | (outs, inl Stop) =>
            Some (mk (Ended Quit) (rooms s), map Print outs ++ [CloseHub])
        | (outs, inr e) => raised s (map Print outs) e
        end
  | AwaitCommand, InputError e => raised s [] e
  | SendingRefresh, SendDone => Some (mk AwaitMessage (rooms s), [])
  | SendingPing, SendDone => Some (mk AwaitCommand (rooms s), [Print OPong; Input HubPrompt])
  | InRoom r, _ =>
      match Room.room_chat_step r ev with
      | None => None
      | Some (r', acts) =>
          match Room.at_pc r' with
          | Room.Returned _ =>
              Some (mk SendingAfterRoom (rooms s),
                    acts ++ [Print OReturned; SendHub get_list])
          | _ => Some (mk (InRoom r') (rooms s), acts)
          end
      end
  | SendingAfterRoom, SendDone => Some (mk AwaitMessage (rooms s), [])
  | (SendingFirst | SendingRefresh | SendingPing | SendingAfterRoom), SendError e =>
      raised s [] e
  | _, _ => None
  end.

(** How the process ends. *)
Inductive process_end : Type :=
| ExitNormally
| Uncaught (e : exn).

(** [main]: [asyncio.run(hub_client())]; its only handler is for the
    keyboard interrupt, so every [exn] of [hub_client] goes through. *)
Definition main (r : result) : process_end :=
  match r with
  | Raised e => Uncaught e
  | Quit | StreamEnded => ExitNormally
  end.

End Hub.

(* ================================================================= *)
(** ** Reading a trace *)

(** The addresses the client connected to. *)
Fixpoint connections (acts : list action) : list (option json) :=
  match acts with
  | [] => []
  | ConnectHub :: r => None :: connections r
  | ConnectRoom a :: r => Some a :: connections r
  | _ :: r => connections r
  end.

(** The requests sent to the hub. *)
Fixpoint hub_requests (acts : list action) : list json :=
  match acts with
  | [] => []
  | SendHub q :: r => q :: hub_requests r
  | _ :: r => hub_requests r
  end.

(** The texts sent to the room. *)
Fixpoint room_sends (acts : list action) : list string :=
  match acts with
  | [] => []
  | SendRoom t :: r => t :: room_sends r
  | _ :: r => room_sends r
  end.

(** The inbound lines printed by [receiver]. *)
Fixpoint rendered (acts : list action) : list string :=
  match acts with
  | [] => []
  | Print (ORender _ msg) :: r => msg :: rendered r
  | _ :: r => rendered r
  end.

(** The part of a trace before the hub next asks for a command. *)
Fixpoint until_prompt (acts : list action) : list action :=
  match acts with
  | [] => []
  | Input HubPrompt :: _ => []
  | a :: r => a :: until_prompt r
  end.

(* ================================================================= *)
(** ** Directories *)

(** A directory maps room names to addresses, both strings; [as_cache]
    is the value of [rooms] that holds it. *)
Definition directory : Type := list (string * string).

Definition as_cache (D : directory) : json :=
  JObj (map (fun kv => (fst kv, JStr (snd kv))) D).

(** The address stored under a name. *)
Fixpoint address (name : string) (D : directory) : option string :=
  match D with
  | [] => None
  | (k, a) :: r => if k =? name then Some a else address name r
  end.

(* ================================================================= *)
(** ** Phases of a room session *)

(** The handshake of [room_chat] is everything before [receiver] is
    started: the connect, the read of the welcome, the prompt for the
    name and the send of the name. [handshake_raise p ev] is the
    exception that answer [ev] raises at the handshake await [p]; a
    connection found closed at the read of the welcome raises
    [ConnectionClosedOK]. *)
Definition handshake_raise (p : Room.pc) (ev : event) : option exn :=
  match p, ev with
  | Room.Connecting, ConnectError e => Some e
  | Room.AwaitWelcome, StreamError e => Some e
  | Room.AwaitWelcome, StreamEnd => Some ConnectionClosedOK
  | Room.AwaitName, InputError e => Some e
  | Room.SendingName _, SendError e => Some e
  | _, _ => None
  end.

(** The awaits of the body of [room_chat] once [receiver] is started. *)
Definition steady_pc (p : Room.pc) : bool :=
  match p with
  | Room.AwaitLine | Room.Sending _ | Room.Closing | Room.Unwinding _ => true
  | _ => false
  end.

(** How a run of a room session that has returned by one of the two
    [return]s of the input loop came to its end: as disconnected, by a
    send that failed, after the connection-lost line; as left
    voluntarily, by the close that completed. *)
Definition ends_as (evs : list event) (s' : Room.state) (acts : list action) : Prop :=
  match Room.at_pc s' with
  | Room.Returned Disconnected =>
      exists evs0 e0, evs = evs0 ++ [SendError e0] /\ In (Print OConnectionLost) acts
  | Room.Returned LeftVoluntarily => exists evs0, evs = evs0 ++ [CloseDone]
  | _ => True
  end.

(* ================================================================= *)
(** ** The hub address *)

(** [c in chars] for one character *)
Fixpoint mem_char (c : ascii) (chars : string) : bool :=
  match chars with
  | EmptyString => false
  | String d r => Ascii.eqb c d || mem_char c r
  end.

(** [s.rstrip(chars)] *)
Fixpoint rstrip_chars (chars s : string) : string :=
  match s with
  | EmptyString => EmptyString
  | String c r =>
      match rstrip_chars chars r with
      | EmptyString => if mem_char c chars then EmptyString else String c EmptyString
      | r' => String c r'
      end
  end.

(** [n] slashes *)
Fixpoint slashes (n : nat) : string :=
  match n with
  | O => EmptyString
  | S k => String "/" (slashes k)
  end.

(** [HUB_URL], from the environment variable of that name when it is
    set. *)
Definition HUB_URL (env : option string) : string :=
  match env with
  | Some url => url
  | None => "ws://localhost:8080"
  end.

(** [HUB_WS], the address [hub_client] connects to. *)
Definition HUB_WS (env : option string) : string :=
  (rstrip_chars "/" (HUB_URL env) ++ "/ws")%string.

(* ================================================================= *)
(** ** Reading a run *)

(** The room messages delivered in a run. *)
Fixpoint inbound (evs : list event) : list string :=
  match evs with
  | [] => []
  | RoomMessage msg :: r => msg :: inbound r
  | _ :: r => inbound r
  end.

(** The lines the user entered in a run. *)
Fixpoint typed (evs : list event) : list string :=
  match evs with
  | [] => []
  | UserLine line :: r => line :: typed r
  | _ :: r => typed r
  end.

(** The test of the input loop of [room_chat]. *)
Definition is_leave (line : string) : bool := Str.strip line =? "/leave".

(** How often the hub connection was closed. *)
Fixpoint hub_closes (acts : list action) : nat :=
  match acts with
  | [] => 0
  | CloseHub :: r => S (hub_closes r)
  | _ :: r => hub_closes r
  end.

(** How often the hub asked for a command. *)
Fixpoint hub_prompts (acts : list action) : nat :=
  match acts with
  | [] => 0
  | Input HubPrompt :: r => S (hub_prompts r)
  | _ :: r => hub_prompts r
  end.

(** The hub message decodes to an object whose type is room_list. *)
Definition is_room_list (payload : option json) : bool :=
  match payload with
  | Some (JObj items) =>
      match lookup "type" items with
      | Some ty => eq_str ty "room_list"
      | None => false
      end
  | _ => false
  end.

(** A room list arrives in the run. *)
Fixpoint has_room_list (evs : list event) : bool :=
  match evs with
  | [] => false
  | HubPayload payload :: r => is_room_list payload || has_room_list r
  | _ :: r => has_room_list r
  end.

(** What a run of a room session has done about [receiver], by where
    the session is at the end: returned through the handler, returned
    by one of the two [return]s, or not returned. *)
Definition verdict (s' : Room.state) (acts : list action) : Prop :=
  match Room.at_pc s' with
  | Room.Returned (JoinFailed e) =>
      ~ In CancelReceiver acts /\ In (Print (OJoinFailed e)) acts
  | Room.Returned _ =>
      Room.recv s' <> Room.Running
      /\ In CancelReceiver acts /\ In CloseRoom acts
  | _ => ~ In CancelReceiver acts
  end.

(** The awaits outside the command loop and outside a room: from there
    the way to the next command goes through [async for raw in ws]. *)
Definition early (s : Hub.state) : bool :=
  match Hub.at_pc s with
  | Hub.Connecting | Hub.SendingFirst | Hub.AwaitMessage
  | Hub.SendingRefresh | Hub.SendingAfterRoom | Hub.Ended _ => true
  | _ => false
  end.

Definition ended (s : Hub.state) : bool :=
  match Hub.at_pc s with
  | Hub.Ended _ => true
  | _ => false
  end.

(* ================================================================= *)
(** * Properties *)

(** ** Strings *)

Section StringFacts.

Lemma startswith_iff (p s : string) :
  Str.startswith p s = true <-> exists rest, s = (p ++ rest)%string.
Proof.
  unfold Str.startswith. revert s.
  induction p as [|c p IH]; intros s; simpl.
  - split; [intros _; now exists s | intros _; destruct s; reflexivity].
  - destruct s as [|d s].
    + split; [discriminate | intros [rest H]; discriminate].
    + simpl. destruct (Ascii.ascii_dec c d) as [->|Hne].
      * rewrite IH. split; intros [rest H]; exists rest; congruence.
      * split; [discriminate | intros [rest H]; congruence].
Qed.

Lemma startswith_false_iff (p s : string) :
  Str.startswith p s = false <-> ~ exists rest, s = (p ++ rest)%string.
Proof.
  rewrite <- startswith_iff.
  destruct (Str.startswith p s); split; congruence.
Qed.

Lemma startswith_app (p rest : string) :
  Str.startswith p (p ++ rest)%string = true.
Proof. apply startswith_iff. now exists rest. Qed.

Lemma strip_empty : Str.strip "" = "".
Proof. reflexivity. Qed.

(** A line that strips to something was not empty. *)
Lemma stripped_nonempty (line : string) (c : ascii) (r : string) :
  Str.strip line = String c r -> (line =? "") = false.
Proof.
  destruct line; [discriminate | reflexivity].
Qed.

End StringFacts.

(** ** The inbound classification *)

(** C7. The classification of an inbound room line is a function of the
    line alone, defined on every line, and follows the ordered prefix
    rule: the line is a system notice exactly when it starts with the
    marker [---]; it is a tagged chat line exactly when it does not but
    starts with a bracket; it is a generic information line exactly when
    it starts with neither.  [receiver] prints every line in the class
    so found and goes on. *)
Theorem classification_total (msg : string) :
  let sys := exists rest, msg = ("---" ++ rest)%string in
  let tag := exists rest, msg = ("[" ++ rest)%string in
  (Room.classify msg = SystemNotice <-> sys)
  /\ (Room.classify msg = TaggedChat <-> ~ sys /\ tag)
  /\ (Room.classify msg = GenericInfo <-> ~ sys /\ ~ tag)
  /\ Room.receiver (RoomMessage msg)
     = Some (Room.Running, [Print (ORender (Room.classify msg) msg)]).
Proof.
  intros sys tag. unfold Room.receiver, Room.classify.
  pose proof (startswith_iff "---" msg) as S1.
  pose proof (startswith_false_iff "---" msg) as S0.
  pose proof (startswith_iff "[" msg) as T1.
  pose proof (startswith_false_iff "[" msg) as T0.
  fold sys in S1, S0. fold tag in T1, T0.
  assert (B : forall b, b = true \/ b = false) by (intros []; auto).
  destruct (B (Str.startswith "---" msg)) as [E3|E3];
    destruct (B (Str.startswith "[" msg)) as [E1|E1];
    rewrite E3, ?E1;
    [ apply S1 in E3; apply T1 in E1 | apply S1 in E3; apply T0 in E1
    | apply S0 in E3; apply T1 in E1 | apply S0 in E3; apply T0 in E1 ];
    clear S1 S0 T1 T0 B;
    repeat split; intros; try discriminate; try reflexivity; tauto.
Qed.

(** ** The command loop of the hub *)

Section Commands.

Variable d : list (string * json).

(** A line of the command loop that is not empty goes through the
    chain. *)
Lemma command_step (rooms : json) (line : string) (c : ascii) (r : string) :
  Str.strip line = String c r ->
  Hub.hub_client_step (Hub.mk Hub.AwaitCommand rooms) (UserLine line)
  = match Hub.on_command rooms (String c r) with
    | (outs, inl Hub.Continue) =>
        Some (Hub.mk Hub.AwaitCommand rooms, map Print outs ++ [Input HubPrompt])
    | (outs, inl Hub.Refresh) =>
        Some (Hub.mk Hub.SendingRefresh rooms, map Print outs ++ [SendHub get_list])
    | (outs, inl Hub.Ping) =>
        Some (Hub.mk Hub.SendingPing rooms, map Print outs ++ [SendHub get_list])
    | (outs, inl (Hub.Join addr)) =>
        Some (Hub.mk (Hub.InRoom (fst (Room.room_chat addr))) rooms,
              map Print outs ++ snd (Room.room_chat addr))
    | (outs, inl Hub.Stop) =>
        Some (Hub.mk (Hub.Ended Hub.Quit) rooms, map Print outs ++ [CloseHub])
    | (outs, inr e) =>
        Some (Hub.mk (Hub.Ended (Hub.Raised e)) rooms, map Print outs ++ [CloseHub])
    end.
Proof.
  intros H. unfold Hub.hub_client_step. cbn [Hub.at_pc Hub.rooms].
  rewrite (stripped_nonempty _ _ _ H), H.
  destruct (Hub.on_command rooms (String c r)) as [outs [[]|e]]; reflexivity.
Qed.

Lemma info_found (rest addr : string) :
  lookup (Str.strip rest) d = Some (JStr addr) ->
  Hub.on_command (JObj d) ("/info " ++ rest)%string
  = ([ORoomInfo; OInfoName (Str.strip rest); OInfoAddress (JStr addr);
      OInfoProtocol (Str.startswith "wss" addr)], inl Hub.Continue).
Proof.
  intros H. unfold Hub.on_command.
  rewrite startswith_app. cbn -[Str.strip lookup].
  rewrite H. reflexivity.
Qed.

Lemma info_missing (rest : string) :
  lookup (Str.strip rest) d = None ->
  Hub.on_command (JObj d) ("/info " ++ rest)%string
  = ([OInfoNotFound (Str.strip rest)], inl Hub.Continue).
Proof.
  intros H. unfold Hub.on_command.
  rewrite startswith_app. cbn -[Str.strip lookup].
  rewrite H. reflexivity.
Qed.

Lemma join_falsy (rest : string) :
  match lookup (Str.strip rest) d with
  | Some addr => truthy addr = false
  | None => True
  end ->
  Hub.on_command (JObj d) ("/join " ++ rest)%string
  = ([OJoinNotFound (Str.strip rest)], inl Hub.Continue).
Proof.
  intros H. unfold Hub.on_command.
  rewrite startswith_app. cbn -[Str.strip lookup truthy].
  destruct (lookup (Str.strip rest) d) as [addr|].
  - rewrite H. reflexivity.
  - reflexivity.
Qed.

Lemma join_truthy (rest : string) (addr : json) :
  lookup (Str.strip rest) d = Some addr -> truthy addr = true ->
  Hub.on_command (JObj d) ("/join " ++ rest)%string
  = ([OConnecting (Str.strip rest)], inl (Hub.Join addr)).
Proof.
  intros H T. unfold Hub.on_command.
  rewrite startswith_app. cbn -[Str.strip lookup truthy].
  rewrite H, T. reflexivity.
Qed.

End Commands.

Lemma lookup_as_cache (name : string) (D : directory) :
  lookup name (map (fun kv => (fst kv, JStr (snd kv))) D)
  = option_map JStr (address name D).
Proof.
  induction D as [|[k a] D IH]; [reflexivity|].
  simpl. destruct (k =? name); [reflexivity | exact IH].
Qed.

(** C5. Whatever directory is cached, a Join for a name that is not a key
    of it prints the not-found message and prompts for the next command:
    the session stays in the command loop with the same cache, and no
    connection is attempted. *)
Theorem join_absent_no_connection
    (d : list (string * json)) (line rest : string) :
  Str.strip line = ("/join " ++ rest)%string ->
  lookup (Str.strip rest) d = None ->
  let s := Hub.mk Hub.AwaitCommand (JObj d) in
  exists acts,
    Hub.hub_client_step s (UserLine line) = Some (s, acts)
    /\ acts = [Print (OJoinNotFound (Str.strip rest)); Input HubPrompt]
    /\ connections acts = [].
Proof.
  intros L A s. eexists. split; [|split; reflexivity].
  pose proof (command_step (JObj d) line "/" ("join " ++ rest)%string L) as E.
  change (String "/" ("join " ++ rest)%string) with ("/join " ++ rest)%string in E.
  rewrite join_falsy in E by now rewrite A.
  exact E.
Qed.

Lemma join_absent_no_connection_witness :
  let d := [("lobby", JStr "ws://x/lobby")] in
  let s := Hub.mk Hub.AwaitCommand (JObj d) in
  exists acts,
    Hub.hub_client_step s (UserLine "  /join ghost ") = Some (s, acts)
    /\ acts = [Print (OJoinNotFound "ghost"); Input HubPrompt]
    /\ connections acts = [].
Proof.
  exact (join_absent_no_connection
           [("lobby", JStr "ws://x/lobby")] "  /join ghost " "ghost"
           eq_refl eq_refl).
Defined.

(** C6. Whatever directory is cached, Info for a name that is a key of
    it prints the name, exactly the address stored under that name and
    the protocol read off the address prefix (secure exactly when the
    address starts with [wss]); Info for a name that is not a key prints
    the not-found message.  Either way the session stays in the command
    loop with the same cache. *)
Theorem info_reads_directory (D : directory) (line rest : string) :
  Str.strip line = ("/info " ++ rest)%string ->
  let name := Str.strip rest in
  let s := Hub.mk Hub.AwaitCommand (as_cache D) in
  Hub.hub_client_step s (UserLine line)
  = Some (s, match address name D with
             | Some addr =>
                 [Print ORoomInfo; Print (OInfoName name);
                  Print (OInfoAddress (JStr addr));
                  Print (OInfoProtocol (Str.startswith "wss" addr));
                  Input HubPrompt]
             | None => [Print (OInfoNotFound name); Input HubPrompt]
             end).
Proof.
  intros L name s. unfold s, as_cache.
  pose proof (command_step (as_cache D) line "/" ("info " ++ rest)%string L) as E.
  change (String "/" ("info " ++ rest)%string) with ("/info " ++ rest)%string in E.
  unfold as_cache in E.
  pose proof (lookup_as_cache name D) as A. fold name in E.
  destruct (address name D) as [addr|]; simpl in A.
  - rewrite (info_found _ rest addr A) in E. exact E.
  - rewrite (info_missing _ rest A) in E. exact E.
Qed.

Lemma info_reads_directory_witness :
  let D := [("lobby", "ws://x/lobby"); ("vault", "wss://x/vault")] in
  let s := Hub.mk Hub.AwaitCommand (as_cache D) in
  Hub.hub_client_step s (UserLine "/info vault")
  = Some (s, [Print ORoomInfo; Print (OInfoName "vault");
              Print (OInfoAddress (JStr "wss://x/vault"));
              Print (OInfoProtocol true); Input HubPrompt])
  /\ Hub.hub_client_step s (UserLine "/info  ghost ")
     = Some (s, [Print (OInfoNotFound "ghost"); Input HubPrompt]).
Proof.
  split.
  - exact (info_reads_directory
             [("lobby", "ws://x/lobby"); ("vault", "wss://x/vault")]
             "/info vault" "vault" eq_refl).
  - exact (info_reads_directory
             [("lobby", "ws://x/lobby"); ("vault", "wss://x/vault")]
             "/info  ghost " " ghost" eq_refl).
Defined.

(** C10. When a name is a key of the cached directory and the address
    stored under it is the empty string, Join for that name prints the
    not-found message and attempts no connection, while Info for the same
    name prints the stored empty address: the two commands disagree on
    whether the room is there. *)
Theorem join_info_disagree_on_empty_address
    (d : list (string * json)) (join_line info_line rest : string) :
  Str.strip join_line = ("/join " ++ rest)%string ->
  Str.strip info_line = ("/info " ++ rest)%string ->
  lookup (Str.strip rest) d = Some (JStr "") ->
  let name := Str.strip rest in
  let s := Hub.mk Hub.AwaitCommand (JObj d) in
  exists jacts,
    Hub.hub_client_step s (UserLine join_line) = Some (s, jacts)
    /\ jacts = [Print (OJoinNotFound name); Input HubPrompt]
    /\ connections jacts = []
    /\ Hub.hub_client_step s (UserLine info_line)
       = Some (s, [Print ORoomInfo; Print (OInfoName name);
                   Print (OInfoAddress (JStr "")); Print (OInfoProtocol false);
                   Input HubPrompt]).
Proof.
  intros J F A name s. eexists. split; [|split; [reflexivity|split; [reflexivity|]]].
  - pose proof (command_step (JObj d) join_line "/" ("join " ++ rest)%string J) as E.
    change (String "/" ("join " ++ rest)%string) with ("/join " ++ rest)%string in E.
    rewrite join_falsy in E by now rewrite A.
    exact E.
  - pose proof (command_step (JObj d) info_line "/" ("info " ++ rest)%string F) as E.
    change (String "/" ("info " ++ rest)%string) with ("/info " ++ rest)%string in E.
    rewrite (info_found d rest "" A) in E. exact E.
Qed.

Lemma join_info_disagree_on_empty_address_witness :
  let d := [("lobby", JStr "ws://x/lobby"); ("void", JStr "")] in
  let s := Hub.mk Hub.AwaitCommand (JObj d) in
  exists jacts,
    Hub.hub_client_step s (UserLine "/join void") = Some (s, jacts)
    /\ jacts = [Print (OJoinNotFound "void"); Input HubPrompt]
    /\ connections jacts = []
    /\ Hub.hub_client_step s (UserLine "/info void")
       = Some (s, [Print ORoomInfo; Print (OInfoName "void");
                   Print (OInfoAddress (JStr "")); Print (OInfoProtocol false);
                   Input HubPrompt]).
Proof.
  exact (join_info_disagree_on_empty_address
           [("lobby", JStr "ws://x/lobby"); ("void", JStr "")]
           "/join void" "/info void" "void" eq_refl eq_refl eq_refl).
Defined.

(** ** Traces *)

Section Traces.

Lemma hub_requests_app (a b : list action) :
  hub_requests (a ++ b) = hub_requests a ++ hub_requests b.
Proof.
  induction a as [|x a IH]; [reflexivity|].
  destruct x; simpl; rewrite IH; reflexivity.
Qed.

Lemma rendered_app (a b : list action) :
  rendered (a ++ b) = rendered a ++ rendered b.
Proof.
  induction a as [|x a IH]; [reflexivity|].
  destruct x as [| | | | | | | | |[]]; simpl; rewrite IH; reflexivity.
Qed.

Lemma hub_requests_prints (outs : list output) :
  hub_requests (map Print outs) = [].
Proof. induction outs; simpl; auto. Qed.

Lemma until_prompt_prints (outs : list output) (rest : list action) :
  until_prompt (map Print outs ++ rest) = map Print outs ++ until_prompt rest.
Proof. induction outs; simpl; congruence. Qed.

Lemma run_cons {S : Type} (step : S -> event -> option (S * list action))
    (s s' : S) (ev : event) (evs : list event) (acts : list action) :
  run step s (ev :: evs) = Some (s', acts) ->
  exists s1 a1 a2,
    step s ev = Some (s1, a1) /\ run step s1 evs = Some (s', a2)
    /\ acts = a1 ++ a2.
Proof.
  simpl. destruct (step s ev) as [[s1 a1]|]; [|discriminate].
  destruct (run step s1 evs) as [[s2 a2]|] eqn:R; [|discriminate].
  intros H. injection H as <- <-. exists s1, a1, a2. auto.
Qed.

(** Once [hub_client] has ended nothing more happens. *)
Lemma ended_stuck (r : Hub.result) (rooms : json) (ev : event) (evs : list event) :
  run Hub.hub_client_step (Hub.mk (Hub.Ended r) rooms) (ev :: evs) = None.
Proof. reflexivity. Qed.

(** Between the request sent after a room and the next command prompt
    the hub sends nothing. *)
Lemma no_request_until_prompt (evs : list event) :
  forall (s s' : Hub.state) (acts : list action),
    (Hub.at_pc s = Hub.SendingAfterRoom \/ Hub.at_pc s = Hub.AwaitMessage
     \/ exists r, Hub.at_pc s = Hub.Ended r) ->
    run Hub.hub_client_step s evs = Some (s', acts) ->
    hub_requests (until_prompt acts) = [].
Proof.
  induction evs as [|ev evs IH]; intros s s' acts Q R.
  - simpl in R. injection R as <- <-. reflexivity.
  - apply run_cons in R. destruct R as (s1 & a1 & a2 & St & R & ->).
    destruct s as [p rooms]. simpl in Q.
    destruct Q as [->|[->|[r ->]]].
    + destruct ev; try discriminate St; simpl in St; injection St as <- <-.
      * simpl. eapply IH; [|exact R]. simpl; auto.
      * simpl. eapply IH; [|exact R]. simpl; eauto.
    + destruct ev; try discriminate St; cbn [Hub.hub_client_step Hub.at_pc Hub.rooms] in St.
      * destruct (Hub.on_message rooms data) as [outs [[rooms' []]|e]];
          [ | | unfold Hub.raised in St ]; injection St as <- <-.
        -- rewrite until_prompt_prints, hub_requests_app, hub_requests_prints.
           simpl. eapply IH; [|exact R]. simpl; auto.
        -- rewrite <- app_assoc, until_prompt_prints.
           simpl. rewrite app_nil_r. apply hub_requests_prints.
        -- rewrite <- app_assoc, until_prompt_prints, hub_requests_app,
             hub_requests_prints.
           simpl. eapply IH; [|exact R]. simpl; eauto.
      * injection St as <- <-. simpl. eapply IH; [|exact R]. simpl; eauto.
      * unfold Hub.raised in St. injection St as <- <-.
        simpl. eapply IH; [|exact R]. simpl; eauto.
    + discriminate St.
Qed.

End Traces.

(** ** The hub around a room session *)

(** C4. Take any room session running under the hub and any step in which
    it returns, with whatever outcome.  In every run of the hub that
    contains that step, the trace from there on is: the last actions of
    the room, the returned-to-hub line, and then, before the hub next
    prompts for a command, exactly one request to the hub, which is
    [get_list]. *)
Theorem one_get_list_after_room
    (rooms : json) (r r' : Room.state) (o : outcome) (ev : event)
    (racts : list action) (evs : list event) (s' : Hub.state)
    (acts : list action) :
  Room.room_chat_step r ev = Some (r', racts) ->
  Room.at_pc r' = Room.Returned o ->
  run Hub.hub_client_step (Hub.mk (Hub.InRoom r) rooms) (ev :: evs)
  = Some (s', acts) ->
  exists rest,
    acts = racts ++ Print OReturned :: rest
    /\ hub_requests (until_prompt rest) = [get_list].
Proof.
  intros St Ret R.
  apply run_cons in R. destruct R as (s1 & a1 & a2 & H & R & ->).
  cbn [Hub.hub_client_step Hub.at_pc Hub.rooms] in H.
  rewrite St, Ret in H. injection H as <- <-.
  exists (SendHub get_list :: a2). split.
  - rewrite <- app_assoc. reflexivity.
  - simpl. f_equal. eapply no_request_until_prompt; [|exact R]. simpl; auto.
Qed.

Lemma one_get_list_after_room_witness :
  exists rest,
    [CancelReceiver; CloseRoom; Print OReturned; SendHub get_list;
     Print (OAvailable 0); Print ONoRooms; Print OBlank; Input HubPrompt;
     SendHub get_list]
    = [CancelReceiver; CloseRoom] ++ Print OReturned :: rest
    /\ hub_requests (until_prompt rest) = [get_list].
Proof.
  exact (one_get_list_after_room (JObj [])
           (Room.mk Room.Closing Room.Running)
           (Room.mk (Room.Returned LeftVoluntarily) Room.Cancelled)
           LeftVoluntarily CloseDone [CancelReceiver; CloseRoom]
           [SendDone;
            HubPayload (Some (JObj [("type", JStr "room_list")]));
            UserLine "/list"]
           (Hub.mk Hub.SendingRefresh (JObj []))
           [CancelReceiver; CloseRoom; Print OReturned; SendHub get_list;
            Print (OAvailable 0); Print ONoRooms; Print OBlank; Input HubPrompt;
            SendHub get_list]
           eq_refl eq_refl eq_refl).
Defined.

(** C8. Whatever exception is raised at an await of the handshake (the
    connect, the read of the welcome, the prompt for the name, the send
    of the name), [room_chat] returns at once through its handler: the
    join-failure message with that exception is printed, [receiver] is
    never started and the steady state is never reached; the hub takes
    over again with its cache as it was. *)
Theorem handshake_failure_returns_to_hub
    (p : Room.pc) (t : Room.recv_task) (ev : event) (e : exn) (rooms : json) :
  handshake_raise p ev = Some e ->
  exists acts,
    Room.room_chat_step (Room.mk p t) ev
    = Some (Room.mk (Room.Returned (JoinFailed e)) t, acts)
    /\ In (Print (OJoinFailed e)) acts
    /\ ~ In CreateReceiver acts
    /\ Hub.hub_client_step (Hub.mk (Hub.InRoom (Room.mk p t)) rooms) ev
       = Some (Hub.mk Hub.SendingAfterRoom rooms,
               acts ++ [Print OReturned; SendHub get_list]).
Proof.
  intros H.
  destruct p; destruct ev; try discriminate H; simpl in H;
    injection H as <-;
    (eexists; split; [reflexivity|]);
    (split; [simpl; auto|]);
    (split; [|reflexivity]);
    simpl; intros F; repeat (destruct F as [F|F]; [discriminate F|]); exact F.
Qed.

Lemma handshake_failure_returns_to_hub_witness :
  let rooms := JObj [("lobby", JStr "ws://x/lobby")] in
  exists acts,
    Room.room_chat_step (Room.mk Room.AwaitWelcome Room.NotCreated)
      (StreamError ConnectionClosedError)
    = Some (Room.mk (Room.Returned (JoinFailed ConnectionClosedError))
              Room.NotCreated, acts)
    /\ In (Print (OJoinFailed ConnectionClosedError)) acts
    /\ ~ In CreateReceiver acts
    /\ Hub.hub_client_step
         (Hub.mk (Hub.InRoom (Room.mk Room.AwaitWelcome Room.NotCreated)) rooms)
         (StreamError ConnectionClosedError)
       = Some (Hub.mk Hub.SendingAfterRoom rooms,
               acts ++ [Print OReturned; SendHub get_list]).
Proof.
  exact (handshake_failure_returns_to_hub Room.AwaitWelcome Room.NotCreated
           (StreamError ConnectionClosedError) ConnectionClosedError
           (JObj [("lobby", JStr "ws://x/lobby")]) eq_refl).
Defined.

(** ** The steady state of a room session *)

Section Steady.

(** [/leave] is answered locally: nothing is sent, the connection is
    closed. *)
Lemma leave_is_local (t : Room.recv_task) (line : string) :
  Str.strip line = "/leave" ->
  Room.room_chat_step (Room.steady t) (UserLine line)
  = Some (Room.mk Room.Closing t, [Print OLeaving; CloseRoom]).
Proof.
  intros H. unfold Room.room_chat_step, Room.steady.
  cbn [Room.at_pc Room.recv]. rewrite H. reflexivity.
Qed.

(** When the close is done, [receiver] is cancelled and [room_chat]
    returns. *)
Lemma leave_completes (t : Room.recv_task) :
  Room.room_chat_step (Room.mk Room.Closing t) CloseDone
  = Some (Room.mk (Room.Returned LeftVoluntarily) (Room.cancel t),
          [CancelReceiver; CloseRoom]).
Proof. reflexivity. Qed.

(** In the steady state a task that is not running prints no inbound
    line and stays as it is. *)
Lemma only_running_renders (s s' : Room.state) (ev : event) (acts : list action) :
  steady_pc (Room.at_pc s) = true ->
  Room.recv s <> Room.Running ->
  Room.room_chat_step s ev = Some (s', acts) ->
  rendered acts = [] /\ Room.recv s' <> Room.Running
  /\ (steady_pc (Room.at_pc s') = true \/ exists o, Room.at_pc s' = Room.Returned o).
Proof.
  intros P N H. destruct s as [p t]. simpl in P, N.
  assert (C : Room.cancel t <> Room.Running) by (destruct t; simpl; congruence).
  destruct p; try discriminate P; destruct ev;
    unfold Room.room_chat_step in H; cbn in H;
    try (destruct t; try congruence; discriminate H).
  all: try (destruct (Str.strip line =? "/leave")).
  all: injection H as <- <-; simpl; eauto.
Qed.

Lemma silent_once_stopped (evs : list event) :
  forall (s s' : Room.state) (acts : list action),
    steady_pc (Room.at_pc s) = true ->
    Room.recv s <> Room.Running ->
    run Room.room_chat_step s evs = Some (s', acts) ->
    rendered acts = [].
Proof.
  induction evs as [|ev evs IH]; intros s s' acts P N R.
  - simpl in R. injection R as <- <-. reflexivity.
  - apply run_cons in R. destruct R as (s1 & a1 & a2 & St & R & ->).
    destruct (only_running_renders _ _ _ _ P N St) as (Q & N1 & [P1|[o P1]]).
    + rewrite rendered_app, Q. simpl. eapply IH; eauto.
    + destruct evs as [|ev' evs'].
      * simpl in R. injection R as <- <-. now rewrite app_nil_r.
      * destruct s1 as [p1 t1]. simpl in P1. subst p1. discriminate R.
Qed.

(** A line that is not [/leave] is sent as it is. *)
Lemma line_is_sent (t : Room.recv_task) (line : string) :
  Str.strip line <> "/leave" ->
  Room.room_chat_step (Room.steady t) (UserLine line)
  = Some (Room.mk (Room.Sending line) t, [SendRoom line]).
Proof.
  intros H. unfold Room.room_chat_step, Room.steady.
  cbn [Room.at_pc Room.recv].
  destruct (String.eqb_spec (Str.strip line) "/leave"); [contradiction|reflexivity].
Qed.

End Steady.

(** C1. The run in which a chat line arrives while [room_chat] awaits
    the close that follows [/leave]: [/leave] is not sent, the connection
    is closed and [room_chat] returns as left voluntarily with [receiver]
    cancelled, but the line that was in flight is printed after the
    leaving message, because [receiver] is cancelled only once the close
    is done. *)
Theorem leave_prints_line_in_flight :
  run Room.room_chat_step (Room.steady Room.Running)
    [UserLine "/leave"; RoomMessage "[bob] hi"; CloseDone]
  = Some (Room.mk (Room.Returned LeftVoluntarily) Room.Cancelled,
          [Print OLeaving; CloseRoom; Print (ORender TaggedChat "[bob] hi");
           CancelReceiver; CloseRoom]).
Proof. reflexivity. Qed.

Section Endings.

Lemma step_ends_as (s s' : Room.state) (ev : event) (acts : list action) :
  Room.room_chat_step s ev = Some (s', acts) -> ends_as [ev] s' acts.
Proof.
  intros H. destruct s as [p t]. unfold ends_as.
  destruct p; destruct ev; unfold Room.room_chat_step in H; cbn in H;
    try discriminate H;
    try (destruct (Str.strip line =? "/leave"));
    try (destruct t; try discriminate H);
    injection H as <- <-; simpl; auto.
  all: try (now exists []).
  all: exists [], e; simpl; auto.
Qed.

Lemma run_ends_as (evs : list event) :
  forall (s s' : Room.state) (acts : list action),
    (forall o, Room.at_pc s <> Room.Returned o) ->
    run Room.room_chat_step s evs = Some (s', acts) ->
    ends_as evs s' acts.
Proof.
  induction evs as [|ev evs IH]; intros s s' acts N H.
  - simpl in H. injection H as <- <-. unfold ends_as.
    destruct (Room.at_pc s) eqn:E; try exact I.
    exfalso. exact (N o eq_refl).
  - apply run_cons in H. destruct H as (s1 & a1 & a2 & St & H & ->).
    destruct evs as [|ev' evs'].
    + simpl in H. injection H as <- <-. rewrite app_nil_r.
      exact (step_ends_as _ _ _ _ St).
    + assert (N1 : forall o, Room.at_pc s1 <> Room.Returned o).
      { intros o E. destruct s1 as [p1 t1]. simpl in E. subst p1.
        discriminate H. }
      pose proof (IH s1 s' a2 N1 H) as V. unfold ends_as in *.
      destruct (Room.at_pc s') as [| | | | | | | |[| |e]]; try exact I.
      * destruct V as [evs0 V]. exists (ev :: evs0). simpl. now rewrite V.
      * destruct V as (evs0 & e0 & V & W). exists (ev :: evs0), e0.
        split; [simpl; now rewrite V|]. apply in_app_iff. now right.
Qed.

End Endings.

(** C2, as claimed, fails: after the receive stream has ended, by a close
    of the peer or by an error, the session is still in its input loop;
    on the close of the peer nothing is printed; the next line is read
    and sent, the session ends as disconnected only when that send
    fails, and it can still end as left voluntarily. *)
Lemma receive_end_does_not_end_session :
  run Room.room_chat_step (Room.steady Room.Running) [StreamEnd]
  = Some (Room.steady Room.Finished, [])
  /\ run Room.room_chat_step (Room.steady Room.Running)
       [StreamError ConnectionClosedError]
     = Some (Room.steady Room.Finished, [Print ODisconnected])
  /\ run Room.room_chat_step (Room.steady Room.Running)
       [StreamError ConnectionClosedError; UserLine "hello";
        SendError ConnectionClosedError]
     = Some (Room.mk (Room.Returned Disconnected) Room.Finished,
             [Print ODisconnected; SendRoom "hello";
              Print OConnectionLost; CancelReceiver; CloseRoom])
  /\ run Room.room_chat_step (Room.steady Room.Running)
       [StreamError ConnectionClosedError; UserLine "/leave"; CloseDone]
     = Some (Room.mk (Room.Returned LeftVoluntarily) Room.Finished,
             [Print ODisconnected; Print OLeaving; CloseRoom;
              CancelReceiver; CloseRoom]).
Proof. repeat split. Qed.

(** C2, amended. In the steady state the end of the receive stream stops
    [receiver], after the disconnect notice when the stream ended by an
    error, and leaves the body of [room_chat] parked where it was: the
    session does not end there.  No inbound line is printed after the
    end of the stream.  The input loop goes on: a line other than
    [/leave] is still sent; when the send is done the next line is asked
    for; when the send fails the connection-lost line is printed and the
    session ends as disconnected, and it ends as disconnected in no
    other way; [/leave] closes the connection and ends the session as
    left voluntarily. *)
Theorem receive_end_keeps_input_loop
    (p : Room.pc) (e e' : exn) (line bye : string) (evs : list event)
    (s' : Room.state) (acts : list action) :
  steady_pc p = true ->
  Str.strip line <> "/leave" ->
  Str.strip bye = "/leave" ->
  run Room.room_chat_step (Room.mk p Room.Finished) evs = Some (s', acts) ->
  Room.room_chat_step (Room.mk p Room.Running) (StreamError e)
  = Some (Room.mk p Room.Finished, [Print ODisconnected])
  /\ (exists quiet, Room.room_chat_step (Room.mk p Room.Running) StreamEnd
                    = Some (Room.mk p Room.Finished, quiet))
  /\ Room.room_chat_step (Room.steady Room.Finished) (UserLine line)
     = Some (Room.mk (Room.Sending line) Room.Finished, [SendRoom line])
  /\ Room.room_chat_step (Room.mk (Room.Sending line) Room.Finished) SendDone
     = Some (Room.steady Room.Finished, [Input ChatPrompt])
  /\ Room.room_chat_step (Room.mk (Room.Sending line) Room.Finished) (SendError e')
     = Some (Room.mk (Room.Returned Disconnected) Room.Finished,
             [Print OConnectionLost; CancelReceiver; CloseRoom])
  /\ run Room.room_chat_step (Room.steady Room.Finished) [UserLine bye; CloseDone]
     = Some (Room.mk (Room.Returned LeftVoluntarily) Room.Finished,
             [Print OLeaving; CloseRoom; CancelReceiver; CloseRoom])
  /\ rendered acts = []
  /\ ends_as evs s' acts.
Proof.
  intros P L B R. repeat split.
  - destruct p; try discriminate P; reflexivity.
  - destruct p; try discriminate P; eexists; reflexivity.
  - apply line_is_sent, L.
  - cbn [run]. rewrite (leave_is_local Room.Finished bye B). reflexivity.
  - apply (silent_once_stopped evs (Room.mk p Room.Finished) s' acts P);
      [simpl; discriminate | exact R].
  - apply (run_ends_as evs (Room.mk p Room.Finished) s' acts); [|exact R].
    intros o E. simpl in E. subst p. discriminate P.
Qed.

Lemma receive_end_keeps_input_loop_witness :
  Room.room_chat_step (Room.steady Room.Running)
    (StreamError ConnectionClosedError)
  = Some (Room.steady Room.Finished, [Print ODisconnected])
  /\ (exists quiet,
        Room.room_chat_step (Room.steady Room.Running) StreamEnd
        = Some (Room.steady Room.Finished, quiet))
  /\ Room.room_chat_step (Room.steady Room.Finished) (UserLine "hello")
     = Some (Room.mk (Room.Sending "hello") Room.Finished, [SendRoom "hello"])
  /\ Room.room_chat_step (Room.mk (Room.Sending "hello") Room.Finished) SendDone
     = Some (Room.steady Room.Finished, [Input ChatPrompt])
  /\ Room.room_chat_step (Room.mk (Room.Sending "hello") Room.Finished)
       (SendError ConnectionClosedOK)
     = Some (Room.mk (Room.Returned Disconnected) Room.Finished,
             [Print OConnectionLost; CancelReceiver; CloseRoom])
  /\ run Room.room_chat_step (Room.steady Room.Finished)
       [UserLine " /leave"; CloseDone]
     = Some (Room.mk (Room.Returned LeftVoluntarily) Room.Finished,
             [Print OLeaving; CloseRoom; CancelReceiver; CloseRoom])
  /\ rendered [SendRoom "hello"; Print OConnectionLost; CancelReceiver; CloseRoom]
     = []
  /\ ends_as [UserLine "hello"; SendError ConnectionClosedError]
       (Room.mk (Room.Returned Disconnected) Room.Finished)
       [SendRoom "hello"; Print OConnectionLost; CancelReceiver; CloseRoom].
Proof.
  refine (receive_end_keeps_input_loop Room.AwaitLine
            ConnectionClosedError ConnectionClosedOK "hello" " /leave"
            [UserLine "hello"; SendError ConnectionClosedError]
            (Room.mk (Room.Returned Disconnected) Room.Finished)
            [SendRoom "hello"; Print OConnectionLost; CancelReceiver; CloseRoom]
            eq_refl _ eq_refl eq_refl).
  vm_compute. discriminate.
Defined.

(** ** The end of the hub session *)

(** C3, as claimed, fails: when the hub closes the connection the client
    prints no disconnection message and the process ends normally; when
    the hub connection fails no message is printed either and the
    exception leaves [main] unhandled. *)
Lemma hub_drop_prints_nothing :
  run Hub.hub_client_step (fst Hub.hub_client) [Connected; SendDone; StreamEnd]
  = Some (Hub.mk (Hub.Ended Hub.StreamEnded) (JObj []),
          [SendHub get_list; Print OConnected; Print OCommands; CloseHub])
  /\ Hub.main Hub.StreamEnded = Hub.ExitNormally
  /\ run Hub.hub_client_step (fst Hub.hub_client)
       [Connected; SendDone; StreamError ConnectionClosedError]
     = Some (Hub.mk (Hub.Ended (Hub.Raised ConnectionClosedError)) (JObj []),
             [SendHub get_list; Print OConnected; Print OCommands; CloseHub])
  /\ Hub.main (Hub.Raised ConnectionClosedError)
     = Hub.Uncaught ConnectionClosedError.
Proof. repeat split. Qed.

(** C3, amended. When the stream of hub messages ends while the client
    waits for one, the session is over and no further command is read:
    nothing more happens after it.  The client prints nothing about it.
    After a close by the peer [hub_client] returns and the process ends
    normally; after a failure the exception leaves [hub_client] and
    [main] unhandled. *)
Theorem hub_stream_end_stops_client
    (rooms : json) (e : exn) (r : Hub.result) (ev : event) (evs : list event) :
  Hub.hub_client_step (Hub.mk Hub.AwaitMessage rooms) StreamEnd
  = Some (Hub.mk (Hub.Ended Hub.StreamEnded) rooms, [CloseHub])
  /\ Hub.main Hub.StreamEnded = Hub.ExitNormally
  /\ Hub.hub_client_step (Hub.mk Hub.AwaitMessage rooms) (StreamError e)
     = Some (Hub.mk (Hub.Ended (Hub.Raised e)) rooms, [CloseHub])
  /\ Hub.main (Hub.Raised e) = Hub.Uncaught e
  /\ run Hub.hub_client_step (Hub.mk (Hub.Ended r) rooms) (ev :: evs) = None.
Proof. repeat split. Qed.

(** ** Inbound hub messages *)

Section Payloads.

Variable rooms : json.

(** A message that [json.loads] rejects is skipped. *)
Lemma undecodable_is_skipped :
  Hub.hub_client_step (Hub.mk Hub.AwaitMessage rooms) (HubPayload None)
  = Some (Hub.mk Hub.AwaitMessage rooms, []).
Proof. reflexivity. Qed.

(** An object of another type, or of none, is skipped. *)
Lemma other_object_is_skipped (items : list (string * json)) :
  match lookup "type" items with
  | Some ty => eq_str ty "room_list" = false /\ eq_str ty "admin_broadcast" = false
  | None => True
  end ->
  Hub.hub_client_step (Hub.mk Hub.AwaitMessage rooms) (HubPayload (Some (JObj items)))
  = Some (Hub.mk Hub.AwaitMessage rooms, []).
Proof.
  intros H. unfold Hub.hub_client_step, Hub.on_message.
  cbn -[lookup eq_str].
  destruct (lookup "type" items) as [ty|].
  - destruct H as [-> ->]. reflexivity.
  - reflexivity.
Qed.

(** A decoded message that is not an object has no [get]. *)
Lemma non_object_raises (data : json) :
  match data with JObj _ => False | _ => True end ->
  Hub.hub_client_step (Hub.mk Hub.AwaitMessage rooms) (HubPayload (Some data))
  = Some (Hub.mk (Hub.Ended (Hub.Raised AttributeError)) rooms, [CloseHub]).
Proof. destruct data; intros H; try reflexivity; contradiction. Qed.

End Payloads.

(** C9. The hub message [[]], valid JSON that is neither a room list nor
    an admin broadcast, is not discarded: the lookup of its type raises
    [AttributeError], which ends [hub_client] and leaves [main]
    unhandled. No later message is read. *)
Theorem json_array_payload_ends_client :
  run Hub.hub_client_step (fst Hub.hub_client)
    [Connected; SendDone; HubPayload (Some (JArr []))]
  = Some (Hub.mk (Hub.Ended (Hub.Raised AttributeError)) (JObj []),
          [SendHub get_list; Print OConnected; Print OCommands; CloseHub])
  /\ Hub.main (Hub.Raised AttributeError) = Hub.Uncaught AttributeError
  /\ run Hub.hub_client_step (fst Hub.hub_client)
       [Connected; SendDone; HubPayload (Some (JArr [])); HubPayload None]
     = None.
Proof. repeat split. Qed.

(* ================================================================= *)
(** * Further properties of the code *)

(** ** The hub address *)

Section Address.

Lemma rstrip_slash_app (s : string) :
  rstrip_chars "/" (s ++ "/")%string = rstrip_chars "/" s.
Proof.
  induction s as [|c s IH]; [reflexivity|].
  simpl. simpl in IH. rewrite IH. reflexivity.
Qed.

Lemma rstrip_slash_end (s b : string) :
  rstrip_chars "/" s <> (b ++ "/")%string.
Proof.
  revert b. induction s as [|c s IH]; intros b H.
  - destruct b; discriminate H.
  - cbn [rstrip_chars] in H.
    destruct (rstrip_chars "/" s) as [|d r] eqn:E.
    + destruct (mem_char c "/") eqn:M.
      * destruct b; discriminate H.
      * destruct b as [|c' b]; simpl in H.
        -- injection H as ->. discriminate M.
        -- injection H as _ H. destruct b; discriminate H.
    + destruct b as [|c' b]; simpl in H.
      * discriminate H.
      * injection H as _ H. exact (IH b H).
Qed.

(** What [rstrip] takes away is a run of slashes at the end. *)
Lemma rstrip_slash_split (s : string) :
  exists n, s = (rstrip_chars "/" s ++ slashes n)%string.
Proof.
  induction s as [|c s [n IH]].
  - now exists 0.
  - cbn [rstrip_chars].
    destruct (rstrip_chars "/" s) as [|d r] eqn:E.
    + simpl in IH. destruct (mem_char c "/") eqn:M.
      * exists (S n). simpl in M. rewrite orb_false_r in M.
        apply Ascii.eqb_eq in M. subst c. simpl. now rewrite <- IH.
      * exists n. simpl. now rewrite <- IH.
    + exists n. simpl. simpl in IH. now rewrite <- IH.
Qed.

End Address.

(** X1. The address of the hub is the configured URL without its
    trailing slashes, followed by [/ws]: the URL is some base followed by
    slashes only, the base does not end with a slash, and the address is
    that base followed by [/ws].  So one more slash at the end of the URL
    gives the same address. *)
Theorem hub_address_ignores_trailing_slash (url : string) :
  HUB_WS (Some (url ++ "/")%string) = HUB_WS (Some url)
  /\ exists base n,
       url = (base ++ slashes n)%string
       /\ HUB_WS (Some url) = (base ++ "/ws")%string
       /\ forall b, base <> (b ++ "/")%string.
Proof.
  unfold HUB_WS, HUB_URL. split.
  - rewrite rstrip_slash_app. reflexivity.
  - destruct (rstrip_slash_split url) as [n E].
    exists (rstrip_chars "/" url), n. split; [exact E|]. split; [reflexivity|].
    intros b. apply rstrip_slash_end.
Qed.

(** ** Stripping *)

Section Stripping.

Lemma rstrip_last_not_space (s b : string) (c : ascii) :
  Str.rstrip s = (b ++ String c "")%string -> Str.is_space c = false.
Proof.
  revert b. induction s as [|d s IH]; intros b H.
  - destruct b; discriminate H.
  - cbn [Str.rstrip] in H.
    destruct (Str.rstrip s) as [|x r] eqn:E.
    + destruct (Str.is_space d) eqn:M.
      * destruct b; discriminate H.
      * destruct b as [|d' b]; simpl in H.
        -- injection H as ->. exact M.
        -- injection H as _ H. destruct b; discriminate H.
    + destruct b as [|d' b]; simpl in H.
      * discriminate H.
      * injection H as _ H. exact (IH b H).
Qed.

Lemma last_char (s : string) :
  s <> "" -> exists b c, s = (b ++ String c "")%string.
Proof.
  induction s as [|d s IH]; intros N; [contradiction|].
  destruct s as [|x r].
  - now exists "", d.
  - destruct IH as (b & c & E); [discriminate|].
    exists (String d b), c. simpl. now rewrite E.
Qed.

Lemma lstrip_keeps_last (b : string) (c : ascii) :
  Str.is_space c = false ->
  exists b', Str.lstrip (b ++ String c "")%string = (b' ++ String c "")%string.
Proof.
  intros N. induction b as [|d b IH]; simpl.
  - rewrite N. now exists "".
  - destruct (Str.is_space d); [exact IH|].
    now exists (String d b).
Qed.

Lemma rstrip_keeps_last (b : string) (c : ascii) :
  Str.is_space c = false ->
  Str.rstrip (b ++ String c "")%string = (b ++ String c "")%string.
Proof.
  intros N. induction b as [|d b IH]; simpl.
  - now rewrite N.
  - rewrite IH. destruct b; reflexivity.
Qed.

(** A string whose last character is no space does not strip to the
    empty string. *)
Lemma strip_keeps_last (b : string) (c : ascii) :
  Str.is_space c = false -> Str.strip (b ++ String c "")%string <> "".
Proof.
  intros N. unfold Str.strip.
  destruct (lstrip_keeps_last b c N) as [b' ->].
  rewrite (rstrip_keeps_last b' c N). destruct b'; discriminate.
Qed.

Lemma append_assoc (a b c : string) :
  ((a ++ b) ++ c)%string = (a ++ (b ++ c))%string.
Proof. induction a as [|x a IH]; simpl; congruence. Qed.

(** In a stripped line, what follows a space does not strip to the
    empty string. *)
Lemma argument_not_empty (line p rest : string) :
  Str.strip line = (p ++ String " " rest)%string -> Str.strip rest <> "".
Proof.
  unfold Str.strip at 1. intros H.
  destruct (string_dec rest "") as [->|N].
  - apply rstrip_last_not_space in H. discriminate H.
  - destruct (last_char rest N) as (b & c & ->).
    apply strip_keeps_last.
    apply (rstrip_last_not_space (Str.lstrip line) (p ++ String " " b)%string).
    rewrite H, append_assoc. reflexivity.
Qed.

End Stripping.

(** ** More of the command loop *)

(** X2. The room name that Info and Join work with is never empty: in a
    line that reaches either command, something other than whitespace
    follows the command word. *)
Theorem command_room_name_not_empty (line rest : string) :
  Str.strip line = ("/info " ++ rest)%string
  \/ Str.strip line = ("/join " ++ rest)%string ->
  Str.strip rest <> "".
Proof.
  intros [H|H].
  - exact (argument_not_empty line "/info" rest H).
  - exact (argument_not_empty line "/join" rest H).
Qed.

Lemma command_room_name_not_empty_witness : Str.strip "  lobby" <> "".
Proof.
  exact (command_room_name_not_empty " /join   lobby " "  lobby"
           (or_intror eq_refl)).
Defined.

(** X3. A bare [/join] or [/info], with or without whitespace around it,
    is not a Join or an Info: it is reported as an unknown command, the
    cache is not consulted and the session stays in the command loop. *)
Theorem bare_command_is_unknown (rooms : json) (line : string) :
  Str.strip line = "/join" \/ Str.strip line = "/info" ->
  Hub.hub_client_step (Hub.mk Hub.AwaitCommand rooms) (UserLine line)
  = Some (Hub.mk Hub.AwaitCommand rooms,
          [Print (OUnknown (Str.strip line)); Input HubPrompt]).
Proof.
  intros [H|H];
    rewrite (command_step rooms line "/" _ H), H; reflexivity.
Qed.

Lemma bare_command_is_unknown_witness :
  Hub.hub_client_step (Hub.mk Hub.AwaitCommand (JArr [])) (UserLine "/join  ")
  = Some (Hub.mk Hub.AwaitCommand (JArr []),
          [Print (OUnknown "/join"); Input HubPrompt]).
Proof.
  exact (bare_command_is_unknown (JArr []) "/join  " (or_introl eq_refl)).
Defined.

(** X4. The empty line is skipped without a word, but a line of
    whitespace only is not: it is reported as an unknown command with an
    empty name.  Both leave the session in the command loop. *)
Theorem blank_line_is_unknown (rooms : json) (line : string) :
  line <> "" -> Str.strip line = "" ->
  Hub.hub_client_step (Hub.mk Hub.AwaitCommand rooms) (UserLine line)
  = Some (Hub.mk Hub.AwaitCommand rooms, [Print (OUnknown ""); Input HubPrompt])
  /\ Hub.hub_client_step (Hub.mk Hub.AwaitCommand rooms) (UserLine "")
     = Some (Hub.mk Hub.AwaitCommand rooms, [Input HubPrompt]).
Proof.
  intros N H. split; [|reflexivity].
  unfold Hub.hub_client_step. cbn [Hub.at_pc Hub.rooms].
  destruct line as [|c r]; [contradiction|].
  cbn [String.eqb]. rewrite H. reflexivity.
Qed.

Lemma blank_line_is_unknown_witness :
  Hub.hub_client_step (Hub.mk Hub.AwaitCommand (JObj [])) (UserLine "   ")
  = Some (Hub.mk Hub.AwaitCommand (JObj []), [Print (OUnknown ""); Input HubPrompt])
  /\ Hub.hub_client_step (Hub.mk Hub.AwaitCommand (JObj [])) (UserLine "")
     = Some (Hub.mk Hub.AwaitCommand (JObj []), [Input HubPrompt]).
Proof.
  refine (blank_line_is_unknown (JObj []) "   " _ eq_refl).
  discriminate.
Defined.

(** X5. Join for a name stored in the cached directory with an address
    that is not empty prints the connecting line and opens a room
    session on exactly that address; the cache is kept. *)
Theorem join_connects_to_cached_address
    (D : directory) (line rest addr : string) :
  Str.strip line = ("/join " ++ rest)%string ->
  address (Str.strip rest) D = Some addr ->
  addr <> "" ->
  Hub.hub_client_step (Hub.mk Hub.AwaitCommand (as_cache D)) (UserLine line)
  = Some (Hub.mk (Hub.InRoom (Room.mk Room.Connecting Room.NotCreated)) (as_cache D),
          [Print (OConnecting (Str.strip rest)); ConnectRoom (JStr addr)]).
Proof.
  intros L A N.
  pose proof (command_step (as_cache D) line "/" ("join " ++ rest)%string L) as E.
  change (String "/" ("join " ++ rest)%string) with ("/join " ++ rest)%string in E.
  unfold as_cache in E at 2.
  rewrite (join_truthy _ rest (JStr addr)) in E.
  - exact E.
  - rewrite lookup_as_cache, A. reflexivity.
  - simpl. destruct addr; [contradiction|reflexivity].
Qed.

Lemma join_connects_to_cached_address_witness :
  let D := [("lobby", "ws://x/lobby")] in
  Hub.hub_client_step (Hub.mk Hub.AwaitCommand (as_cache D)) (UserLine "/join lobby")
  = Some (Hub.mk (Hub.InRoom (Room.mk Room.Connecting Room.NotCreated)) (as_cache D),
          [Print (OConnecting "lobby"); ConnectRoom (JStr "ws://x/lobby")]).
Proof.
  refine (join_connects_to_cached_address [("lobby", "ws://x/lobby")]
            "/join lobby" "lobby" "ws://x/lobby" eq_refl eq_refl _).
  discriminate.
Defined.

(** X6. Info for a name whose stored address is not a string prints the
    name and the address and then fails: the test of the address prefix
    raises [AttributeError], which ends [hub_client]. *)
Theorem info_on_non_string_address
    (d : list (string * json)) (line rest : string) (v : json) :
  Str.strip line = ("/info " ++ rest)%string ->
  lookup (Str.strip rest) d = Some v ->
  match v with JStr _ => False | _ => True end ->
  Hub.hub_client_step (Hub.mk Hub.AwaitCommand (JObj d)) (UserLine line)
  = Some (Hub.mk (Hub.Ended (Hub.Raised AttributeError)) (JObj d),
          [Print ORoomInfo; Print (OInfoName (Str.strip rest));
           Print (OInfoAddress v); CloseHub]).
Proof.
  intros L A N.
  pose proof (command_step (JObj d) line "/" ("info " ++ rest)%string L) as E.
  change (String "/" ("info " ++ rest)%string) with ("/info " ++ rest)%string in E.
  rewrite E. unfold Hub.on_command.
  rewrite startswith_app. cbn -[Str.strip lookup].
  rewrite A. destruct v; try reflexivity. contradiction.
Qed.

Lemma info_on_non_string_address_witness :
  Hub.hub_client_step (Hub.mk Hub.AwaitCommand (JObj [("lobby", JInt 5)]))
    (UserLine "/info lobby")
  = Some (Hub.mk (Hub.Ended (Hub.Raised AttributeError)) (JObj [("lobby", JInt 5)]),
          [Print ORoomInfo; Print (OInfoName "lobby");
           Print (OInfoAddress (JInt 5)); CloseHub]).
Proof.
  exact (info_on_non_string_address [("lobby", JInt 5)] "/info lobby" "lobby"
           (JInt 5) eq_refl eq_refl I).
Defined.

(** ** What the hub session keeps *)

Section HubInvariants.

Lemma hub_closes_app (a b : list action) :
  hub_closes (a ++ b) = hub_closes a + hub_closes b.
Proof.
  induction a as [|x a IH]; [reflexivity|].
  destruct x; simpl; rewrite IH; reflexivity.
Qed.

Lemma hub_prompts_app (a b : list action) :
  hub_prompts (a ++ b) = hub_prompts a + hub_prompts b.
Proof.
  induction a as [|x a IH]; [reflexivity|].
  destruct x as [| | | | | | | |[]|]; simpl; rewrite IH; reflexivity.
Qed.

Lemma prints_are_local (outs : list output) :
  hub_closes (map Print outs) = 0 /\ hub_prompts (map Print outs) = 0.
Proof. induction outs; simpl; auto. Qed.

(** A room session acts on its own connection only. *)
Lemma room_acts_are_local (r r' : Room.state) (ev : event) (acts : list action) :
  Room.room_chat_step r ev = Some (r', acts) ->
  hub_requests acts = [] /\ hub_closes acts = 0 /\ hub_prompts acts = 0.
Proof.
  intros H. destruct r as [p t].
  destruct p; destruct ev; unfold Room.room_chat_step in H; cbn in H;
    try discriminate H;
    try (destruct (Str.strip line =? "/leave"));
    try (destruct t; try discriminate H);
    injection H as <- <-; simpl; auto.
Qed.

(** A message that is no room list leaves the directory as it is and
    does not open the command loop. *)
Lemma on_message_keeps (rooms rooms' : json) (payload : option json)
    (outs : list output) (n : Hub.next) :
  is_room_list payload = false ->
  Hub.on_message rooms payload = (outs, inl (rooms', n)) ->
  rooms' = rooms /\ n = Hub.Wait.
Proof.
  intros R H. destruct payload as [data|].
  - destruct data as [| | | | | |its]; try discriminate H.
    unfold Hub.on_message in H. cbn -[lookup eq_str] in H. simpl in R.
    destruct (lookup "type" its) as [ty|].
    + rewrite R in H. cbn -[lookup eq_str] in H.
      destruct (eq_str ty "admin_broadcast"); cbn in H;
        injection H as _ <- <-; auto.
    + cbn in H. injection H as _ <- <-; auto.
  - cbn in H. injection H as _ <- <-; auto.
Qed.

End HubInvariants.

Section Cache.

Lemma step_keeps_cache (s s' : Hub.state) (ev : event) (acts : list action) :
  Hub.hub_client_step s ev = Some (s', acts) ->
  Hub.at_pc s <> Hub.Connecting -> Hub.at_pc s <> Hub.SendingFirst ->
  has_room_list [ev] = false ->
  Hub.rooms s' = Hub.rooms s
  /\ Hub.at_pc s' <> Hub.Connecting /\ Hub.at_pc s' <> Hub.SendingFirst.
Proof.
  intros H C F R. destruct s as [p rooms]. simpl in C, F.
  destruct p; destruct ev;
    cbn [Hub.hub_client_step Hub.at_pc Hub.rooms] in H;
    try discriminate H; try congruence;
    try (unfold Hub.raised in H; injection H as <- <-;
         repeat split; discriminate).
  (* in a room *)
  all: try (destruct (Room.room_chat_step r _) as [[r' racts]|];
            [|discriminate H];
            destruct (Room.at_pc r'); injection H as <- <-;
            repeat split; discriminate).
  (* a command *)
  all: try (destruct (line =? "");
            [injection H as <- <-; repeat split; discriminate|];
            destruct (Hub.on_command rooms (Str.strip line)) as [outs [[]|e]];
            unfold Hub.raised in H; cbn in H; injection H as <- <-;
            repeat split; discriminate).
  (* a message *)
  simpl in R. rewrite orb_false_r in R.
  destruct (Hub.on_message rooms data) as [outs [[rooms' n]|e]] eqn:M.
  - destruct (on_message_keeps _ _ _ _ _ R M) as [-> ->].
    injection H as <- <-. repeat split; discriminate.
  - unfold Hub.raised in H. injection H as <- <-. repeat split; discriminate.
Qed.

Lemma has_room_list_cons (ev : event) (evs : list event) :
  has_room_list (ev :: evs) = false ->
  has_room_list [ev] = false /\ has_room_list evs = false.
Proof.
  destruct ev; simpl; auto.
  rewrite orb_false_r. apply orb_false_elim.
Qed.

End Cache.

(** X7. The cached directory changes at one place only.  Once the first
    request has been sent, a run of the hub session in which no room list
    arrives ends with the cache it started with, whatever commands, room
    sessions, admin broadcasts and other messages it contains. *)
Theorem cache_changes_on_room_list_only
    (evs : list event) (s s' : Hub.state) (acts : list action) :
  Hub.at_pc s <> Hub.Connecting -> Hub.at_pc s <> Hub.SendingFirst ->
  has_room_list evs = false ->
  run Hub.hub_client_step s evs = Some (s', acts) ->
  Hub.rooms s' = Hub.rooms s.
Proof.
  revert s acts. induction evs as [|ev evs IH]; intros s acts C F R H.
  - simpl in H. injection H as <- <-. reflexivity.
  - apply run_cons in H. destruct H as (s1 & a1 & a2 & St & H & ->).
    apply has_room_list_cons in R. destruct R as [R1 R].
    destruct (step_keeps_cache _ _ _ _ St C F R1) as (E & C1 & F1).
    rewrite <- E. exact (IH s1 a2 C1 F1 R H).
Qed.

Lemma cache_changes_on_room_list_only_witness :
  Hub.rooms (Hub.mk Hub.AwaitMessage (JObj [("lobby", JStr "ws://x/lobby")]))
  = JObj [("lobby", JStr "ws://x/lobby")].
Proof.
  refine (cache_changes_on_room_list_only
            [UserLine "/help"; UserLine "/join lobby"; ConnectError EOFError;
             SendDone; HubPayload None;
             HubPayload (Some (JObj [("type", JStr "admin_broadcast")]))]
            (Hub.mk Hub.AwaitCommand (JObj [("lobby", JStr "ws://x/lobby")]))
            (Hub.mk Hub.AwaitMessage (JObj [("lobby", JStr "ws://x/lobby")]))
            [Print OHelp; Input HubPrompt; Print (OConnecting "lobby");
             ConnectRoom (JStr "ws://x/lobby"); Print (OJoinFailed EOFError);
             Print OReturned; SendHub get_list; Print (OAdmin (JStr ""))]
            _ _ eq_refl eq_refl); discriminate.
Defined.

Section Requests.

Lemma step_requests (s s' : Hub.state) (ev : event) (acts : list action) :
  Hub.hub_client_step s ev = Some (s', acts) ->
  hub_requests acts = [] \/ hub_requests acts = [get_list].
Proof.
  intros H. destruct s as [p rooms].
  destruct p; destruct ev;
    cbn [Hub.hub_client_step Hub.at_pc Hub.rooms] in H;
    try discriminate H;
    try (unfold Hub.raised in H; injection H as <- <-; simpl; auto; fail).
  (* in a room *)
  all: try (destruct (Room.room_chat_step r _) as [[r' racts]|] eqn:St;
            [|discriminate H];
            apply room_acts_are_local in St; destruct St as (Q & _ & _);
            destruct (Room.at_pc r'); injection H as <- <-;
            rewrite ?hub_requests_app, Q; simpl; auto).
  (* a command *)
  all: try (destruct (line =? ""); [injection H as <- <-; simpl; auto|];
            destruct (Hub.on_command rooms (Str.strip line)) as [outs [[]|e]];
            unfold Hub.raised in H; cbn in H; injection H as <- <-;
            rewrite hub_requests_app, hub_requests_prints; simpl; auto).
  (* a message *)
  destruct (Hub.on_message rooms data) as [outs [[rooms' []]|e]];
    unfold Hub.raised in H; injection H as <- <-;
    rewrite ?hub_requests_app, hub_requests_prints; simpl; auto.
Qed.

End Requests.

(** X8. Whatever the hub, the rooms and the user do, every request the
    client sends to the hub is [get_list]. *)
Theorem only_get_list_is_requested
    (evs : list event) (s s' : Hub.state) (acts : list action) :
  run Hub.hub_client_step s evs = Some (s', acts) ->
  Forall (fun q => q = get_list) (hub_requests acts).
Proof.
  revert s acts. induction evs as [|ev evs IH]; intros s acts H.
  - simpl in H. injection H as <- <-. constructor.
  - apply run_cons in H. destruct H as (s1 & a1 & a2 & St & H & ->).
    rewrite hub_requests_app. apply Forall_app. split.
    + destruct (step_requests _ _ _ _ St) as [-> | ->]; repeat constructor.
    + exact (IH s1 a2 H).
Qed.

Lemma only_get_list_is_requested_witness :
  Forall (fun q => q = get_list)
    (hub_requests
       [SendHub get_list; Print OConnected; Print OCommands;
        Print (OAvailable 0); Print ONoRooms; Print OBlank; Input HubPrompt;
        SendHub get_list; Print OPong; Input HubPrompt; SendHub get_list]).
Proof.
  exact (only_get_list_is_requested
           [Connected; SendDone;
            HubPayload (Some (JObj [("type", JStr "room_list")]));
            UserLine "/ping"; SendDone; UserLine "/refresh"]
           (fst Hub.hub_client)
           (Hub.mk Hub.SendingRefresh (JObj []))
           [SendHub get_list; Print OConnected; Print OCommands;
            Print (OAvailable 0); Print ONoRooms; Print OBlank; Input HubPrompt;
            SendHub get_list; Print OPong; Input HubPrompt; SendHub get_list]
           eq_refl).
Defined.

Section BeforeTheList.

Lemma early_step (s s' : Hub.state) (ev : event) (acts : list action) :
  early s = true ->
  Hub.hub_client_step s ev = Some (s', acts) ->
  has_room_list [ev] = false ->
  early s' = true /\ hub_prompts acts = 0 /\ typed [ev] = [].
Proof.
  intros E H R. destruct s as [p rooms]. unfold early in *. simpl in E.
  destruct p; try discriminate E; destruct ev;
    cbn [Hub.hub_client_step Hub.at_pc Hub.rooms] in H;
    try discriminate H;
    try (unfold Hub.raised in H; injection H as <- <-; simpl; auto; fail).
  simpl in R. rewrite orb_false_r in R.
  destruct (Hub.on_message rooms data) as [outs [[rooms' n]|e]] eqn:M.
  - destruct (on_message_keeps _ _ _ _ _ R M) as [-> ->].
    injection H as <- <-. simpl. repeat split. apply prints_are_local.
  - unfold Hub.raised in H. injection H as <- <-. simpl. repeat split.
    rewrite hub_prompts_app. now rewrite (proj2 (prints_are_local outs)).
Qed.

Lemma early_run (evs : list event) :
  forall (s s' : Hub.state) (acts : list action),
    early s = true ->
    run Hub.hub_client_step s evs = Some (s', acts) ->
    has_room_list evs = false ->
    hub_prompts acts = 0 /\ typed evs = [].
Proof.
  induction evs as [|ev evs IH]; intros s s' acts E H R.
  - simpl in H. injection H as <- <-. auto.
  - apply run_cons in H. destruct H as (s1 & a1 & a2 & St & H & ->).
    apply has_room_list_cons in R. destruct R as [R1 R].
    destruct (early_step _ _ _ _ E St R1) as (E1 & P1 & T1).
    destruct (IH s1 s' a2 E1 H R) as (P2 & T2).
    rewrite hub_prompts_app, P1, P2. split; [reflexivity|].
    destruct ev; try discriminate T1; exact T2.
Qed.

End BeforeTheList.

(** X9. No command is read before the first room list: in a run of
    [hub_client] from its start in which no room list has arrived, the
    user has not been prompted and no line of the user has been taken,
    whatever else the hub has sent. *)
Theorem no_command_before_room_list
    (evs : list event) (s : Hub.state) (acts : list action) :
  run Hub.hub_client_step (fst Hub.hub_client) evs = Some (s, acts) ->
  has_room_list evs = false ->
  hub_prompts acts = 0 /\ typed evs = [].
Proof.
  intros H R. exact (early_run evs (fst Hub.hub_client) s acts eq_refl H R).
Qed.

Lemma no_command_before_room_list_witness :
  hub_prompts [SendHub get_list; Print OConnected; Print OCommands;
               Print (OAdmin (JStr "hello"))] = 0
  /\ typed [Connected; SendDone; HubPayload None;
            HubPayload (Some (JObj [("type", JStr "admin_broadcast");
                                    ("message", JStr "hello")]))] = [].
Proof.
  exact (no_command_before_room_list
           [Connected; SendDone; HubPayload None;
            HubPayload (Some (JObj [("type", JStr "admin_broadcast");
                                    ("message", JStr "hello")]))]
           (Hub.mk Hub.AwaitMessage (JObj []))
           [SendHub get_list; Print OConnected; Print OCommands;
            Print (OAdmin (JStr "hello"))]
           eq_refl eq_refl).
Defined.

Section Closing.

Lemma step_closes (s s' : Hub.state) (ev : event) (acts : list action) :
  Hub.hub_client_step s ev = Some (s', acts) ->
  Hub.at_pc s <> Hub.Connecting ->
  hub_closes acts = (if ended s' then 1 else 0)
  /\ Hub.at_pc s' <> Hub.Connecting.
Proof.
  intros H C. destruct s as [p rooms]. simpl in C.
  destruct p; destruct ev;
    cbn [Hub.hub_client_step Hub.at_pc Hub.rooms] in H;
    try discriminate H; try congruence;
    try (unfold Hub.raised in H; injection H as <- <-;
         (split; [reflexivity|simpl; discriminate])).
  (* in a room *)
  all: try (destruct (Room.room_chat_step r _) as [[r' racts]|] eqn:St;
            [|discriminate H];
            apply room_acts_are_local in St; destruct St as (_ & Q & _);
            destruct (Room.at_pc r'); injection H as <- <-;
            rewrite ?hub_closes_app, Q;
            (split; [reflexivity|simpl; discriminate])).
  (* a command *)
  all: try (destruct (line =? "");
            [injection H as <- <-; (split; [reflexivity|simpl; discriminate])|];
            destruct (Hub.on_command rooms (Str.strip line)) as [outs [[]|e]];
            unfold Hub.raised in H; cbn in H; injection H as <- <-;
            rewrite hub_closes_app, (proj1 (prints_are_local outs));
            (split; [reflexivity|simpl; discriminate])).
  (* a message *)
  destruct (Hub.on_message rooms data) as [outs [[rooms' []]|e]];
    unfold Hub.raised in H; injection H as <- <-;
    rewrite ?hub_closes_app, (proj1 (prints_are_local outs));
    (split; [reflexivity|simpl; discriminate]).
Qed.

End Closing.

(** X10. The hub connection, once open, is closed exactly when
    [hub_client] ends, and once: in every run that starts after the
    connect, nothing closes the hub connection while the session goes
    on, and the run that ends the session closes it one time, whether
    it ends by [/quit], by the end of the stream or by an exception. *)
Theorem hub_closed_once_at_the_end
    (evs : list event) (s s' : Hub.state) (acts : list action) :
  Hub.at_pc s <> Hub.Connecting ->
  ended s = false ->
  run Hub.hub_client_step s evs = Some (s', acts) ->
  hub_closes acts = (if ended s' then 1 else 0).
Proof.
  revert s acts. induction evs as [|ev evs IH]; intros s acts C E H.
  - simpl in H. injection H as <- <-. now rewrite E.
  - apply run_cons in H. destruct H as (s1 & a1 & a2 & St & H & ->).
    destruct (step_closes _ _ _ _ St C) as (Q & C1).
    rewrite hub_closes_app, Q.
    destruct (ended s1) eqn:E1.
    + destruct evs as [|ev' evs'].
      * simpl in H. injection H as <- <-. now rewrite E1.
      * destruct s1 as [p1 rooms1]. unfold ended in E1. simpl in E1.
        destruct p1; try discriminate E1. discriminate H.
    + exact (IH s1 a2 C1 E1 H).
Qed.

Lemma hub_closed_once_at_the_end_witness :
  hub_closes [Print OConnected; Print OCommands;
              Print (OAvailable 0); Print ONoRooms; Print OBlank; Input HubPrompt;
              Print OHelp; Input HubPrompt; Print OGoodbye; CloseHub] = 1.
Proof.
  refine (hub_closed_once_at_the_end
            [SendDone; HubPayload (Some (JObj [("type", JStr "room_list")]));
             UserLine "/help"; UserLine " /quit"]
            (Hub.mk Hub.SendingFirst (JObj []))
            (Hub.mk (Hub.Ended Hub.Quit) (JObj []))
            [Print OConnected; Print OCommands;
             Print (OAvailable 0); Print ONoRooms; Print OBlank; Input HubPrompt;
             Print OHelp; Input HubPrompt; Print OGoodbye; CloseHub]
            _ eq_refl eq_refl).
  discriminate.
Defined.

(** ** More of the hub messages *)

Section RoomList.

Lemma print_entries_numbers (d : list (string * json)) :
  forall i,
    Hub.print_entries i d
    = (map (fun e => ORoomEntry (fst e) (fst (snd e)) (snd (snd e)))
         (combine (seq i (length d)) d), inl tt).
Proof.
  induction d as [|[name addr] d IH]; intros i; [reflexivity|].
  cbn [Hub.print_entries]. rewrite IH. reflexivity.
Qed.

End RoomList.

(** X11. A room list replaces the cache wholesale, whatever was cached
    before: the directory it carries (the empty one when the message has
    no [rooms] entry) becomes the cache; its size is printed, then its
    entries in their order, numbered from 1 (or the no-rooms line when it
    is empty), and the command loop is entered. *)
Theorem room_list_replaces_cache
    (rooms : json) (its d : list (string * json)) :
  lookup "type" its = Some (JStr "room_list") ->
  match lookup "rooms" its with Some v => v | None => JObj [] end = JObj d ->
  Hub.hub_client_step (Hub.mk Hub.AwaitMessage rooms) (HubPayload (Some (JObj its)))
  = Some (Hub.mk Hub.AwaitCommand (JObj d),
          Print (OAvailable (length d))
          :: match d with
             | [] => [Print ONoRooms]
             | _ => map (fun e => Print (ORoomEntry (fst e) (fst (snd e)) (snd (snd e))))
                      (combine (seq 1 (length d)) d)
             end
          ++ [Print OBlank; Input HubPrompt]).
Proof.
  intros T R. unfold Hub.hub_client_step, Hub.on_message.
  cbn -[lookup Hub.print_entries seq]. rewrite T.
  cbn -[lookup Hub.print_entries seq]. rewrite R.
  cbn -[lookup Hub.print_entries seq].
  destruct d as [|e d]; [reflexivity|].
  cbn -[lookup Hub.print_entries seq length]. rewrite print_entries_numbers.
  cbn -[seq length combine]. rewrite map_app, map_map, <- app_assoc. reflexivity.
Qed.

Lemma room_list_replaces_cache_witness :
  Hub.hub_client_step
    (Hub.mk Hub.AwaitMessage (JObj [("old", JStr "ws://x/old")]))
    (HubPayload (Some (JObj [("type", JStr "room_list");
                             ("rooms", JObj [("lobby", JStr "ws://x/lobby");
                                             ("vault", JStr "wss://x/vault")])])))
  = Some (Hub.mk Hub.AwaitCommand
            (JObj [("lobby", JStr "ws://x/lobby"); ("vault", JStr "wss://x/vault")]),
          [Print (OAvailable 2);
           Print (ORoomEntry 1 "lobby" (JStr "ws://x/lobby"));
           Print (ORoomEntry 2 "vault" (JStr "wss://x/vault"));
           Print OBlank; Input HubPrompt]).
Proof.
  exact (room_list_replaces_cache
           (JObj [("old", JStr "ws://x/old")])
           [("type", JStr "room_list");
            ("rooms", JObj [("lobby", JStr "ws://x/lobby");
                            ("vault", JStr "wss://x/vault")])]
           [("lobby", JStr "ws://x/lobby"); ("vault", JStr "wss://x/vault")]
           eq_refl eq_refl).
Defined.

(** X12. A room list whose [rooms] entry is not an object.  Null, a
    boolean or a number has no length: [TypeError] ends [hub_client]
    before anything is printed.  A string or an array that is not empty
    has its length printed and then has no [items]: [AttributeError]
    ends [hub_client].  The empty string and the empty array pass: they
    are taken for an empty directory and become the cache. *)
Theorem room_list_with_non_object_rooms
    (rooms : json) (its : list (string * json)) (v : json) :
  lookup "type" its = Some (JStr "room_list") ->
  lookup "rooms" its = Some v ->
  match v with JObj _ => False | _ => True end ->
  Hub.hub_client_step (Hub.mk Hub.AwaitMessage rooms) (HubPayload (Some (JObj its)))
  = Some match v with
         | JStr "" | JArr [] =>
             (Hub.mk Hub.AwaitCommand v,
              [Print (OAvailable 0); Print ONoRooms; Print OBlank; Input HubPrompt])
         | JStr s =>
             (Hub.mk (Hub.Ended (Hub.Raised AttributeError)) rooms,
              [Print (OAvailable (String.length s)); CloseHub])
         | JArr l =>
             (Hub.mk (Hub.Ended (Hub.Raised AttributeError)) rooms,
              [Print (OAvailable (length l)); CloseHub])
         | _ => (Hub.mk (Hub.Ended (Hub.Raised TypeError)) rooms, [CloseHub])
         end.
Proof.
  intros T R N. unfold Hub.hub_client_step, Hub.on_message.
  cbn -[lookup]. rewrite T. cbn -[lookup]. rewrite R.
  destruct v as [| | | |[|c s]|[|x l]|]; try reflexivity. contradiction.
Qed.

Lemma room_list_with_non_object_rooms_witness :
  Hub.hub_client_step (Hub.mk Hub.AwaitMessage (JObj []))
    (HubPayload (Some (JObj [("type", JStr "room_list");
                             ("rooms", JArr [JStr "lobby"])])))
  = Some (Hub.mk (Hub.Ended (Hub.Raised AttributeError)) (JObj []),
          [Print (OAvailable 1); CloseHub]).
Proof.
  exact (room_list_with_non_object_rooms (JObj [])
           [("type", JStr "room_list"); ("rooms", JArr [JStr "lobby"])]
           (JArr [JStr "lobby"]) eq_refl eq_refl I).
Defined.

(** X13. With the empty array or the empty string as cache, Info
    answers not-found for every name, but Join does not: the lookup of
    the name has no [get] and [AttributeError] ends [hub_client]. *)
Theorem commands_on_empty_non_object_cache
    (rooms : json) (info_line join_line rest rest' : string) :
  rooms = JArr [] \/ rooms = JStr "" ->
  Str.strip info_line = ("/info " ++ rest)%string ->
  Str.strip join_line = ("/join " ++ rest')%string ->
  Hub.hub_client_step (Hub.mk Hub.AwaitCommand rooms) (UserLine info_line)
  = Some (Hub.mk Hub.AwaitCommand rooms,
          [Print (OInfoNotFound (Str.strip rest)); Input HubPrompt])
  /\ Hub.hub_client_step (Hub.mk Hub.AwaitCommand rooms) (UserLine join_line)
     = Some (Hub.mk (Hub.Ended (Hub.Raised AttributeError)) rooms, [CloseHub]).
Proof.
  intros C F J. split.
  - pose proof (command_step rooms info_line "/" ("info " ++ rest)%string F) as E.
    change (String "/" ("info " ++ rest)%string) with ("/info " ++ rest)%string in E.
    rewrite E. unfold Hub.on_command. rewrite startswith_app.
    pose proof (argument_not_empty info_line "/info" rest F) as N.
    destruct C as [-> | ->]; cbn -[Str.strip]; [reflexivity|].
    destruct (Str.strip rest); [contradiction|reflexivity].
  - pose proof (command_step rooms join_line "/" ("join " ++ rest')%string J) as E.
    change (String "/" ("join " ++ rest')%string) with ("/join " ++ rest')%string in E.
    rewrite E. unfold Hub.on_command. rewrite startswith_app.
    destruct C as [-> | ->]; reflexivity.
Qed.

Lemma commands_on_empty_non_object_cache_witness :
  Hub.hub_client_step (Hub.mk Hub.AwaitCommand (JArr [])) (UserLine "/info lobby")
  = Some (Hub.mk Hub.AwaitCommand (JArr []),
          [Print (OInfoNotFound "lobby"); Input HubPrompt])
  /\ Hub.hub_client_step (Hub.mk Hub.AwaitCommand (JArr [])) (UserLine "/join lobby")
     = Some (Hub.mk (Hub.Ended (Hub.Raised AttributeError)) (JArr []), [CloseHub]).
Proof.
  exact (commands_on_empty_non_object_cache (JArr [])
           "/info lobby" "/join lobby" "lobby" "lobby"
           (or_introl eq_refl) eq_refl eq_refl).
Defined.

(** X14. An admin broadcast is printed and changes nothing: its message
    (the empty string when the broadcast has none) is shown, the cache is
    kept, nothing is sent, and the client goes on waiting for the next
    hub message without entering the command loop. *)
Theorem admin_broadcast_is_shown
    (rooms : json) (its : list (string * json)) :
  lookup "type" its = Some (JStr "admin_broadcast") ->
  Hub.hub_client_step (Hub.mk Hub.AwaitMessage rooms) (HubPayload (Some (JObj its)))
  = Some (Hub.mk Hub.AwaitMessage rooms,
          [Print (OAdmin match lookup "message" its with
                         | Some msg => msg
                         | None => JStr ""
                         end)]).
Proof.
  intros T. unfold Hub.hub_client_step, Hub.on_message.
  cbn -[lookup]. rewrite T. reflexivity.
Qed.

Lemma admin_broadcast_is_shown_witness :
  Hub.hub_client_step (Hub.mk Hub.AwaitMessage (JObj [("lobby", JStr "ws://x")]))
    (HubPayload (Some (JObj [("message", JInt 7); ("type", JStr "admin_broadcast")])))
  = Some (Hub.mk Hub.AwaitMessage (JObj [("lobby", JStr "ws://x")]),
          [Print (OAdmin (JInt 7))]).
Proof.
  exact (admin_broadcast_is_shown (JObj [("lobby", JStr "ws://x")])
           [("message", JInt 7); ("type", JStr "admin_broadcast")] eq_refl).
Defined.

(** ** More of the room session *)

(** X15. The handshake that succeeds: the first message of the room is
    printed as the welcome and is not classified; the line entered at the
    name prompt is sent as it is, neither stripped nor tested (an empty
    line or [/leave] is sent as the name); when it is sent the joined
    lines are printed, [receiver] is started, and the session sits at the
    chat prompt. Nothing else is sent. *)
Theorem handshake_sends_name_verbatim (address : json) (welcome name : string) :
  run Room.room_chat_step (fst (Room.room_chat address))
    [Connected; RoomMessage welcome; UserLine name; SendDone]
  = Some (Room.steady Room.Running,
          [Print (OWelcome welcome); Input NamePrompt; SendRoom name;
           Print (OJoined name); Print ORoomCommands; Print OLeaveHint;
           CreateReceiver; Input ChatPrompt]).
Proof. reflexivity. Qed.

Section Streams.

Lemma room_sends_app (a b : list action) :
  room_sends (a ++ b) = room_sends a ++ room_sends b.
Proof.
  induction a as [|x a IH]; [reflexivity|].
  destruct x; simpl; rewrite IH; reflexivity.
Qed.

(** One step of the steady state prints the message it is given, if it
    is one, and sends the line it is given, if it is one and not the
    leave command. *)
Lemma steady_step (s s' : Room.state) (ev : event) (acts : list action) :
  steady_pc (Room.at_pc s) = true ->
  Room.room_chat_step s ev = Some (s', acts) ->
  rendered acts = inbound [ev]
  /\ room_sends acts = filter (fun l => negb (is_leave l)) (typed [ev])
  /\ (steady_pc (Room.at_pc s') = true \/ exists o, Room.at_pc s' = Room.Returned o).
Proof.
  intros P H. destruct s as [p t]. simpl in P.
  destruct p; try discriminate P; destruct ev;
    unfold Room.room_chat_step in H; cbn in H;
    try (destruct t; discriminate H);
    try (destruct t; try discriminate H; injection H as <- <-;
         simpl; auto; fail);
    try (injection H as <- <-; simpl; eauto; fail).
  unfold is_leave. simpl.
  destruct (Str.strip line =? "/leave"); injection H as <- <-; simpl; auto.
Qed.

Lemma returned_stuck (o : outcome) (t : Room.recv_task) (ev : event)
    (evs : list event) :
  run Room.room_chat_step (Room.mk (Room.Returned o) t) (ev :: evs) = None.
Proof. reflexivity. Qed.

Lemma steady_run (evs : list event) :
  forall (s s' : Room.state) (acts : list action),
    steady_pc (Room.at_pc s) = true ->
    run Room.room_chat_step s evs = Some (s', acts) ->
    rendered acts = inbound evs
    /\ room_sends acts = filter (fun l => negb (is_leave l)) (typed evs).
Proof.
  induction evs as [|ev evs IH]; intros s s' acts P H.
  - simpl in H. injection H as <- <-. auto.
  - apply run_cons in H. destruct H as (s1 & a1 & a2 & St & H & ->).
    destruct (steady_step _ _ _ _ P St) as (R1 & S1 & [P1|[o P1]]).
    + destruct (IH s1 s' a2 P1 H) as (R2 & S2).
      rewrite rendered_app, room_sends_app, R1, S1, R2, S2.
      split; destruct ev; try reflexivity.
      simpl. destruct (negb (is_leave line)); reflexivity.
    + destruct evs as [|ev' evs'].
      * simpl in H. injection H as <- <-.
        rewrite !app_nil_r. auto.
      * destruct s1 as [p1 t1]. simpl in P1. subst p1.
        rewrite returned_stuck in H. discriminate H.
Qed.

End Streams.

(** X16. In the steady state every room message that is delivered is
    printed, once, and in the order of arrival, however the messages are
    interleaved with what the user types. *)
Theorem inbound_printed_in_order
    (evs : list event) (s s' : Room.state) (acts : list action) :
  steady_pc (Room.at_pc s) = true ->
  run Room.room_chat_step s evs = Some (s', acts) ->
  rendered acts = inbound evs.
Proof.
  intros P H. exact (proj1 (steady_run evs s s' acts P H)).
Qed.

Lemma inbound_printed_in_order_witness :
  rendered [Print (ORender TaggedChat "[al] hi"); SendRoom "yo";
            Print (ORender SystemNotice "---bye---"); Input ChatPrompt]
  = inbound [RoomMessage "[al] hi"; UserLine "yo"; RoomMessage "---bye---";
             SendDone].
Proof.
  exact (inbound_printed_in_order
           [RoomMessage "[al] hi"; UserLine "yo"; RoomMessage "---bye---"; SendDone]
           (Room.steady Room.Running) (Room.steady Room.Running)
           [Print (ORender TaggedChat "[al] hi"); SendRoom "yo";
            Print (ORender SystemNotice "---bye---"); Input ChatPrompt]
           eq_refl eq_refl).
Defined.

(** X17. In the steady state the texts sent to the room are exactly the
    lines the user entered, as entered and in their order, except the
    line that strips to [/leave], which is not sent; nothing else is ever
    sent, whatever arrives in between. *)
Theorem lines_sent_in_order
    (evs : list event) (s s' : Room.state) (acts : list action) :
  steady_pc (Room.at_pc s) = true ->
  run Room.room_chat_step s evs = Some (s', acts) ->
  room_sends acts = filter (fun l => negb (is_leave l)) (typed evs).
Proof.
  intros P H. exact (proj2 (steady_run evs s s' acts P H)).
Qed.

Lemma lines_sent_in_order_witness :
  room_sends [SendRoom " hi "; Input ChatPrompt; Print (ORender GenericInfo "x");
              SendRoom "/Leave"; Input ChatPrompt; Print OLeaving; CloseRoom]
  = filter (fun l => negb (is_leave l))
      (typed [UserLine " hi "; SendDone; RoomMessage "x"; UserLine "/Leave";
              SendDone; UserLine " /leave "]).
Proof.
  exact (lines_sent_in_order
           [UserLine " hi "; SendDone; RoomMessage "x"; UserLine "/Leave";
            SendDone; UserLine " /leave "]
           (Room.steady Room.Running) (Room.mk Room.Closing Room.Running)
           [SendRoom " hi "; Input ChatPrompt; Print (ORender GenericInfo "x");
            SendRoom "/Leave"; Input ChatPrompt; Print OLeaving; CloseRoom]
           eq_refl eq_refl).
Defined.

Section Returning.

Lemma step_verdict (s s' : Room.state) (ev : event) (acts : list action) :
  Room.room_chat_step s ev = Some (s', acts) -> verdict s' acts.
Proof.
  intros H. destruct s as [p t]. unfold verdict.
  destruct p; destruct ev; unfold Room.room_chat_step in H; cbn in H;
    try discriminate H;
    try (destruct (Str.strip line =? "/leave"));
    try (destruct t; try discriminate H);
    injection H as <- <-; simpl;
    repeat split; try discriminate; auto;
    intros F; repeat (destruct F as [F|F]; [discriminate F|]); exact F.
Qed.

Lemma run_verdict (evs : list event) :
  forall (s s' : Room.state) (acts : list action),
    (forall o, Room.at_pc s <> Room.Returned o) ->
    run Room.room_chat_step s evs = Some (s', acts) ->
    verdict s' acts.
Proof.
  induction evs as [|ev evs IH]; intros s s' acts N H.
  - simpl in H. injection H as <- <-. unfold verdict.
    destruct (Room.at_pc s) eqn:E; try (intros []).
    exfalso. exact (N o eq_refl).
  - apply run_cons in H. destruct H as (s1 & a1 & a2 & St & H & ->).
    pose proof (step_verdict _ _ _ _ St) as V1.
    destruct evs as [|ev' evs'].
    + simpl in H. injection H as <- <-. now rewrite app_nil_r.
    + assert (N1 : forall o, Room.at_pc s1 <> Room.Returned o).
      { intros o E. destruct s1 as [p1 t1]. simpl in E. subst p1.
        discriminate H. }
      pose proof (IH s1 s' a2 N1 H) as V2.
      assert (C1 : ~ In CancelReceiver a1).
      { unfold verdict in V1. destruct (Room.at_pc s1) eqn:E; try exact V1.
        exfalso. exact (N1 o eq_refl). }
      unfold verdict in *.
      destruct (Room.at_pc s') as [| | | | | | | |[| |e]];
        rewrite ?in_app_iff; tauto.
Qed.

End Returning.

(** X18. A room session that returns by one of its two [return]s, after
    [/leave] or after a failed send, has cancelled [receiver] and closed
    the connection: on return [receiver] is not running. *)
Theorem return_cancels_receiver
    (evs : list event) (s s' : Room.state) (acts : list action) (o : outcome) :
  (forall o', Room.at_pc s <> Room.Returned o') ->
  run Room.room_chat_step s evs = Some (s', acts) ->
  Room.at_pc s' = Room.Returned o ->
  o = LeftVoluntarily \/ o = Disconnected ->
  Room.recv s' <> Room.Running
  /\ In CancelReceiver acts /\ In CloseRoom acts.
Proof.
  intros N H R O. pose proof (run_verdict evs s s' acts N H) as V.
  unfold verdict in V. rewrite R in V.
  destruct O as [-> | ->]; exact V.
Qed.

Lemma return_cancels_receiver_witness :
  Room.recv (Room.mk (Room.Returned Disconnected) Room.Cancelled) <> Room.Running
  /\ In CancelReceiver
       [SendRoom "hi"; Print OConnectionLost; CancelReceiver; CloseRoom]
  /\ In CloseRoom
       [SendRoom "hi"; Print OConnectionLost; CancelReceiver; CloseRoom].
Proof.
  refine (return_cancels_receiver
            [UserLine "hi"; SendError ConnectionClosedError]
            (Room.steady Room.Running)
            (Room.mk (Room.Returned Disconnected) Room.Cancelled)
            [SendRoom "hi"; Print OConnectionLost; CancelReceiver; CloseRoom]
            Disconnected _ eq_refl eq_refl (or_intror eq_refl)).
  intros o'. discriminate.
Defined.

(** X19. A room session that returns through its handler never cancels
    [receiver], and reports a failed join with the exception, also when
    the room was joined long before.  When reading a chat line fails in
    the steady state the connection is closed first; [receiver], not
    cancelled, still takes its turn while that close is awaited (the end
    of the stream finishes it, with the disconnect notice when the
    stream ends by an error); only then is the failure printed, as a
    failed join. *)
Theorem handler_leaves_receiver
    (evs : list event) (s s' : Room.state) (acts : list action) (e e1 e2 : exn) :
  (forall o', Room.at_pc s <> Room.Returned o') ->
  run Room.room_chat_step s evs = Some (s', acts) ->
  Room.at_pc s' = Room.Returned (JoinFailed e) ->
  ~ In CancelReceiver acts
  /\ In (Print (OJoinFailed e)) acts
  /\ run Room.room_chat_step (Room.steady Room.Running)
       [InputError e1; StreamError e2; CloseDone]
     = Some (Room.mk (Room.Returned (JoinFailed e1)) Room.Finished,
             [CloseRoom; Print ODisconnected; Print (OJoinFailed e1)])
  /\ run Room.room_chat_step (Room.steady Room.Running)
       [InputError e1; StreamEnd; CloseDone]
     = Some (Room.mk (Room.Returned (JoinFailed e1)) Room.Finished,
             [CloseRoom; Print (OJoinFailed e1)]).
Proof.
  intros N H R. pose proof (run_verdict evs s s' acts N H) as V.
  unfold verdict in V. rewrite R in V. destruct V as [V1 V2].
  repeat split; assumption.
Qed.

Lemma handler_leaves_receiver_witness :
  ~ In CancelReceiver
      [Print (ORender GenericInfo "hi"); CloseRoom; Print ODisconnected;
       Print (OJoinFailed EOFError)]
  /\ In (Print (OJoinFailed EOFError))
       [Print (ORender GenericInfo "hi"); CloseRoom; Print ODisconnected;
        Print (OJoinFailed EOFError)]
  /\ run Room.room_chat_step (Room.steady Room.Running)
       [InputError EOFError; StreamError ConnectionClosedError; CloseDone]
     = Some (Room.mk (Room.Returned (JoinFailed EOFError)) Room.Finished,
             [CloseRoom; Print ODisconnected; Print (OJoinFailed EOFError)])
  /\ run Room.room_chat_step (Room.steady Room.Running)
       [InputError EOFError; StreamEnd; CloseDone]
     = Some (Room.mk (Room.Returned (JoinFailed EOFError)) Room.Finished,
             [CloseRoom; Print (OJoinFailed EOFError)]).
Proof.
  refine (handler_leaves_receiver
            [RoomMessage "hi"; InputError EOFError;
             StreamError ConnectionClosedError; CloseDone]
            (Room.steady Room.Running)
            (Room.mk (Room.Returned (JoinFailed EOFError)) Room.Finished)
            [Print (ORender GenericInfo "hi"); CloseRoom; Print ODisconnected;
             Print (OJoinFailed EOFError)]
            EOFError EOFError ConnectionClosedError _ eq_refl eq_refl).
  intros o'. discriminate.
Defined.

(** X20. A room session acts on its own connection and on the terminal
    only: in no run does it send a request to the hub, close the hub
    connection or prompt for a hub command. *)
Theorem room_session_leaves_hub_alone
    (evs : list event) (s s' : Room.state) (acts : list action) :
  run Room.room_chat_step s evs = Some (s', acts) ->
  hub_requests acts = [] /\ hub_closes acts = 0 /\ hub_prompts acts = 0.
Proof.
  revert s acts. induction evs as [|ev evs IH]; intros s acts H.
  - simpl in H. injection H as <- <-. auto.
  - apply run_cons in H. destruct H as (s1 & a1 & a2 & St & H & ->).
    destruct (room_acts_are_local _ _ _ _ St) as (Q1 & C1 & P1).
    destruct (IH s1 a2 H) as (Q2 & C2 & P2).
    rewrite hub_requests_app, hub_closes_app, hub_prompts_app.
    rewrite Q1, Q2, C1, C2, P1, P2. auto.
Qed.

Lemma room_session_leaves_hub_alone_witness :
  hub_requests [Print (OWelcome "hello"); Input NamePrompt; SendRoom "al"] = []
  /\ hub_closes [Print (OWelcome "hello"); Input NamePrompt; SendRoom "al"] = 0
  /\ hub_prompts [Print (OWelcome "hello"); Input NamePrompt; SendRoom "al"] = 0.
Proof.
  exact (room_session_leaves_hub_alone
           [Connected; RoomMessage "hello"; UserLine "al"]
           (fst (Room.room_chat (JStr "ws://x/lobby")))
           (Room.mk (Room.SendingName "al") Room.NotCreated)
           [Print (OWelcome "hello"); Input NamePrompt; SendRoom "al"]
           eq_refl).
Defined.

(** ** Whole visits and the other commands *)

Section Visits.

Lemma join_step (D : directory) (line rest addr : string) :
  Str.strip line = ("/join " ++ rest)%string ->
  address (Str.strip rest) D = Some addr ->
  addr <> "" ->
  Hub.hub_client_step (Hub.mk Hub.AwaitCommand (as_cache D)) (UserLine line)
  = Some (Hub.mk (Hub.InRoom (Room.mk Room.Connecting Room.NotCreated)) (as_cache D),
          [Print (OConnecting (Str.strip rest)); ConnectRoom (JStr addr)]).
Proof.
  intros L A N.
  pose proof (command_step (as_cache D) line "/" ("join " ++ rest)%string L) as E.
  change (String "/" ("join " ++ rest)%string) with ("/join " ++ rest)%string in E.
  unfold as_cache in E at 2.
  rewrite (join_truthy _ rest (JStr addr)) in E.
  - exact E.
  - rewrite lookup_as_cache, A. reflexivity.
  - simpl. destruct addr; [contradiction|reflexivity].
Qed.

End Visits.

(** X21. A whole visit to a room.  Join for a cached name with an
    address that is not empty, a welcome, a name, and then a line that
    strips to [/leave]: the client connects to the cached address, sends
    the name and nothing else to the room, closes the room connection,
    and is back waiting for the hub with one [get_list] sent and the
    cache untouched. *)
Theorem visit_and_leave
    (D : directory) (line rest addr welcome name bye : string) :
  Str.strip line = ("/join " ++ rest)%string ->
  address (Str.strip rest) D = Some addr ->
  addr <> "" ->
  Str.strip bye = "/leave" ->
  run Hub.hub_client_step (Hub.mk Hub.AwaitCommand (as_cache D))
    [UserLine line; Connected; RoomMessage welcome; UserLine name; SendDone;
     UserLine bye; CloseDone; SendDone]
  = Some (Hub.mk Hub.AwaitMessage (as_cache D),
          [Print (OConnecting (Str.strip rest)); ConnectRoom (JStr addr);
           Print (OWelcome welcome); Input NamePrompt; SendRoom name;
           Print (OJoined name); Print ORoomCommands; Print OLeaveHint;
           CreateReceiver; Input ChatPrompt;
           Print OLeaving; CloseRoom; CancelReceiver; CloseRoom;
           Print OReturned; SendHub get_list]).
Proof.
  intros L A N B. cbn [run].
  rewrite (join_step D line rest addr L A N).
  cbn -[Str.strip as_cache]. rewrite B. reflexivity.
Qed.

Lemma visit_and_leave_witness :
  let D := [("lobby", "ws://x/lobby")] in
  run Hub.hub_client_step (Hub.mk Hub.AwaitCommand (as_cache D))
    [UserLine "/join lobby"; Connected; RoomMessage "welcome"; UserLine "al";
     SendDone; UserLine "/leave "; CloseDone; SendDone]
  = Some (Hub.mk Hub.AwaitMessage (as_cache D),
          [Print (OConnecting "lobby"); ConnectRoom (JStr "ws://x/lobby");
           Print (OWelcome "welcome"); Input NamePrompt; SendRoom "al";
           Print (OJoined "al"); Print ORoomCommands; Print OLeaveHint;
           CreateReceiver; Input ChatPrompt;
           Print OLeaving; CloseRoom; CancelReceiver; CloseRoom;
           Print OReturned; SendHub get_list]).
Proof.
  refine (visit_and_leave [("lobby", "ws://x/lobby")] "/join lobby" "lobby"
            "ws://x/lobby" "welcome" "al" "/leave " eq_refl eq_refl _ eq_refl).
  discriminate.
Defined.

(** X22. [/list] and [/refresh] are one command: either sends one
    [get_list] and leaves the command loop, and from then on no command
    is read and the user is not prompted until a room list has arrived. *)
Theorem refresh_waits_for_room_list
    (rooms : json) (line : string) (evs : list event)
    (s' : Hub.state) (acts : list action) :
  Str.strip line = "/list" \/ Str.strip line = "/refresh" ->
  run Hub.hub_client_step (Hub.mk Hub.AwaitCommand rooms) (UserLine line :: evs)
  = Some (s', acts) ->
  has_room_list evs = false ->
  exists rest,
    acts = SendHub get_list :: rest /\ hub_prompts rest = 0 /\ typed evs = [].
Proof.
  intros L H R.
  apply run_cons in H. destruct H as (s1 & a1 & a2 & St & H & ->).
  assert (E : Hub.hub_client_step (Hub.mk Hub.AwaitCommand rooms) (UserLine line)
              = Some (Hub.mk Hub.SendingRefresh rooms, [SendHub get_list])).
  { destruct L as [L|L];
      rewrite (command_step rooms line "/" _ L); reflexivity. }
  rewrite E in St. injection St as <- <-.
  exists a2. split; [reflexivity|].
  exact (early_run evs (Hub.mk Hub.SendingRefresh rooms) s' a2 eq_refl H R).
Qed.

Lemma refresh_waits_for_room_list_witness :
  exists rest,
    [SendHub get_list; Print (OAdmin (JStr ""))] = SendHub get_list :: rest
    /\ hub_prompts rest = 0
    /\ typed [SendDone; HubPayload (Some (JObj [("type", JStr "admin_broadcast")]))]
       = [].
Proof.
  exact (refresh_waits_for_room_list (JObj []) " /refresh"
           [SendDone; HubPayload (Some (JObj [("type", JStr "admin_broadcast")]))]
           (Hub.mk Hub.AwaitMessage (JObj []))
           [SendHub get_list; Print (OAdmin (JStr ""))]
           (or_intror eq_refl) eq_refl eq_refl).
Defined.

(** X23. [/ping] reads no answer: it sends one [get_list], and as soon as
    the send is done the pong is printed and the next command is asked
    for, with the cache as it was and no hub message read. *)
Theorem ping_reads_no_answer (rooms : json) (line : string) :
  Str.strip line = "/ping" ->
  run Hub.hub_client_step (Hub.mk Hub.AwaitCommand rooms) [UserLine line; SendDone]
  = Some (Hub.mk Hub.AwaitCommand rooms,
          [SendHub get_list; Print OPong; Input HubPrompt]).
Proof.
  intros L. cbn [run].
  rewrite (command_step rooms line "/" _ L). reflexivity.
Qed.

Lemma ping_reads_no_answer_witness :
  run Hub.hub_client_step (Hub.mk Hub.AwaitCommand (JObj [])) [UserLine "/ping"; SendDone]
  = Some (Hub.mk Hub.AwaitCommand (JObj []),
          [SendHub get_list; Print OPong; Input HubPrompt]).
Proof. exact (ping_reads_no_answer (JObj []) "/ping" eq_refl). Defined.

(** X24. A line that is not empty and, stripped, is none of the command
    words and starts with neither [/info ] nor [/join ] is reported as an
    unknown command, by its stripped text; the session stays in the
    command loop with its cache. *)
Theorem other_line_is_unknown (rooms : json) (line : string) :
  line <> "" ->
  Str.strip line <> "/help" -> Str.strip line <> "/list" ->
  Str.strip line <> "/refresh" -> Str.strip line <> "/ping" ->
  Str.strip line <> "/quit" ->
  Str.startswith "/info " (Str.strip line) = false ->
  Str.startswith "/join " (Str.strip line) = false ->
  Hub.hub_client_step (Hub.mk Hub.AwaitCommand rooms) (UserLine line)
  = Some (Hub.mk Hub.AwaitCommand rooms,
          [Print (OUnknown (Str.strip line)); Input HubPrompt]).
Proof.
  intros N H1 H2 H3 H4 H5 I J.
  unfold Hub.hub_client_step. cbn [Hub.at_pc Hub.rooms].
  destruct line as [|c r]; [contradiction|]. cbn [String.eqb].
  unfold Hub.on_command.
  apply String.eqb_neq in H1, H2, H3, H4, H5.
  rewrite H1, H2, H3, H4, H5, I, J. reflexivity.
Qed.

Lemma other_line_is_unknown_witness :
  Hub.hub_client_step (Hub.mk Hub.AwaitCommand (JObj [])) (UserLine "/Quit")
  = Some (Hub.mk Hub.AwaitCommand (JObj []),
          [Print (OUnknown "/Quit"); Input HubPrompt]).
Proof.
  refine (other_line_is_unknown (JObj []) "/Quit" _ _ _ _ _ _ eq_refl eq_refl);
    discriminate.
Defined.

(** X25. [/quit] ends the client for good: the goodbye is printed, the
    hub connection is closed, [main] ends the process normally, and no
    event after it is answered. *)
Theorem quit_ends_client
    (rooms : json) (line : string) (ev : event) (evs : list event) :
  Str.strip line = "/quit" ->
  Hub.hub_client_step (Hub.mk Hub.AwaitCommand rooms) (UserLine line)
  = Some (Hub.mk (Hub.Ended Hub.Quit) rooms, [Print OGoodbye; CloseHub])
  /\ Hub.main Hub.Quit = Hub.ExitNormally
  /\ run Hub.hub_client_step (Hub.mk Hub.AwaitCommand rooms)
       (UserLine line :: ev :: evs) = None.
Proof.
  intros L.
  assert (E : Hub.hub_client_step (Hub.mk Hub.AwaitCommand rooms) (UserLine line)
              = Some (Hub.mk (Hub.Ended Hub.Quit) rooms, [Print OGoodbye; CloseHub])).
  { rewrite (command_step rooms line "/" _ L). reflexivity. }
  repeat split; [exact E|].
  cbn [run]. rewrite E. reflexivity.
Qed.

Lemma quit_ends_client_witness :
  Hub.hub_client_step (Hub.mk Hub.AwaitCommand (JObj [])) (UserLine "/quit ")
  = Some (Hub.mk (Hub.Ended Hub.Quit) (JObj []), [Print OGoodbye; CloseHub])
  /\ Hub.main Hub.Quit = Hub.ExitNormally
  /\ run Hub.hub_client_step (Hub.mk Hub.AwaitCommand (JObj []))
       [UserLine "/quit "; UserLine "/help"] = None.
Proof.
  exact (quit_ends_client (JObj []) "/quit " (UserLine "/help") [] eq_refl).
Defined.
